(** * React-Store: product state manager, import/export adapter, session store

    A shallow embedding of the TypeScript components of the repository:

    - [ProductList]    (src/unnamed/part_001): fetchProducts, addProduct,
                       updateProduct, deleteProduct, filteredProducts;
    - [AddProductForm] (src/src/components/AddProductForm.tsx): handleSubmit,
                       exportToCSV, handleBulkUpload;
    - [AdminDashboard] (src/unnamed/part_003): the derived lists;
    - [AuthContext]    (src/src/context/AuthContext.tsx): restoration, login,
                       logout and the storage effect.

    Asynchronous handlers are functions from the state captured by the
    handler and the outcome of its backend call to the next state and the
    trace of effects (HTTP calls, toasts, console output) in program order. *)

From Stdlib Require Import String Ascii List Bool Arith ZArith Lia Permutation.
From Stdlib Require DecimalString.
From ExtLib Require Import Structures.Monad Structures.MonadState.
From ExtLib Require Import Data.Monads.StateMonad.
Import ListNotations.
Open Scope string_scope.
Open Scope list_scope.

Set Implicit Arguments.

(** String concatenation, the [+] and the template literals of the source. *)
Infix "+++" := String.append (right associativity, at level 60).

(** ** Strings

    A JavaScript string is a sequence of code units; the model keeps the
    code units 0..255 (type [ascii]). *)

Module Str.

(** The double quote, the comma and the line feed. *)
Definition dquote : ascii := ascii_of_nat 34.
Definition comma : ascii := ascii_of_nat 44.
Definition newline : ascii := ascii_of_nat 10.

Definition upper_code (n : nat) : bool :=
  (((65 <=? n) && (n <=? 90)) ||
   ((192 <=? n) && (n <=? 222) && negb (n =? 215)))%nat.

(** String.prototype.toLowerCase, on the code units 0..255: the letters
    A-Z and the Latin-1 capitals U+00C0..U+00DE (U+00D7 is the
    multiplication sign) move up by 32. *)
Definition lower_char (c : ascii) : ascii :=
  let n := nat_of_ascii c in
  if upper_code n then ascii_of_nat (n + 32) else c.

Fixpoint toLowerCase (s : string) : string :=
  match s with
  | EmptyString => EmptyString
  | String c s' => String (lower_char c) (toLowerCase s')
  end.

(** String.prototype.includes. *)
Fixpoint includes (s sub : string) : bool :=
  String.prefix sub s ||
  match s with
  | EmptyString => false
  | String _ s' => includes s' sub
  end.

(** s.split(d) for a one-character separator: the empty string splits
    into one empty piece. *)
Fixpoint split (d : ascii) (s : string) : list string :=
  match s with
  | EmptyString => [EmptyString]
  | String c s' =>
      if Ascii.eqb c d then EmptyString :: split d s'
      else match split d s' with
           | [] => [String c EmptyString]
           | piece :: pieces => String c piece :: pieces
           end
  end.

(** Array.prototype.join. *)
Fixpoint join (sep : string) (l : list string) : string :=
  match l with
  | [] => EmptyString
  | [x] => x
  | x :: rest => x +++ sep +++ join sep rest
  end.

(** s.replace(/Q/g, QQ) where Q is the double quote. *)
Fixpoint doubleQuotes (s : string) : string :=
  match s with
  | EmptyString => EmptyString
  | String c s' =>
      if Ascii.eqb c dquote then String dquote (String dquote (doubleQuotes s'))
      else String c (doubleQuotes s')
  end.

(** s.replace(/,/g, SPACE). *)
Fixpoint commasToSpaces (s : string) : string :=
  match s with
  | EmptyString => EmptyString
  | String c s' =>
      String (if Ascii.eqb c comma then " "%char else c) (commasToSpaces s')
  end.

(** The text between a pair of double quotes, as the template literals
    of the components write it. *)
Definition quoted (s : string) : string :=
  String dquote (s +++ String dquote EmptyString).

Fixpoint has_char (d : ascii) (s : string) : bool :=
  match s with
  | EmptyString => false
  | String c s' => Ascii.eqb c d || has_char d s'
  end.

(** Truthiness of a possibly undefined string: undefined and the empty
    string are falsy. *)
Definition truthy (o : option string) : bool :=
  match o with
  | None => false
  | Some s => negb (s =? EmptyString)
  end.

(** The operator [x || d] on a possibly undefined string. *)
Definition orElse (o : option string) (d : string) : string :=
  match o with
  | None => d
  | Some s => if s =? EmptyString then d else s
  end.

(** The string held by a value the caller has found truthy. *)
Definition the (o : option string) : string :=
  match o with
  | None => EmptyString
  | Some s => s
  end.

(** [x || undefined]. *)
Definition orUndefined (o : option string) : option string :=
  match o with
  | None => None
  | Some s => if s =? EmptyString then None else Some s
  end.

End Str.

(** ** Records of the data model *)

(** interface User of AuthContext.tsx. *)
Module User.
Record t := mk { username : string; role : string }.
End User.

(** An entry of the account list served by GET /users. *)
Module Account.
Record t := mk { username : string; password : string; role : string }.
End Account.

(** ** The ECMAScript built-ins the components call

    Numbers are IEEE doubles in the source; the components only convert
    them from and to text, compare and subtract them, so the model takes
    the number type and these operations as an interface.  The same holds
    for date parsing, locale-aware comparison and the JSON codec of the
    session.  [JSON_parse] returns [None] where JSON.parse throws a
    SyntaxError, [Some None] for the value null and [Some (Some u)] for a
    value of type User. *)
Class Builtins := {
  (* the type number *)
  number : Type;
  (* an integer literal or counter *)
  num_of_Z : Z -> number;
  (* NaN *)
  num_nan : number;
  (* Number(s) *)
  Number : string -> number;
  (* the text of a number in a template literal *)
  num_to_string : number -> string;
  (* a < b *)
  num_ltb : number -> number -> bool;
  (* a <= b *)
  num_leb : number -> number -> bool;
  (* a - b *)
  num_sub : number -> number -> number;
  (* new Date(s).getTime() *)
  Date_getTime : string -> number;
  (* a.localeCompare(b) *)
  localeCompare : string -> string -> number;
  (* JSON.stringify of a session object *)
  JSON_stringify : User.t -> string;
  (* JSON.parse of the stored entry *)
  JSON_parse : string -> option (option User.t)
}.

(** interface Product: the union of the fields the three components
    declare; url and updatedAt are optional. *)
Module Product.
Section Def.
Context {B : Builtins}.

Record t := mk {
  id : string;
  name : string;
  category : string;
  price : number;
  stock : number;
  description : string;
  url : option string;
  updatedAt : option string
}.

End Def.
End Product.

(** Omit<Product, "id">: what the form hands to onAdd. *)
Module NewProduct.
Section Def.
Context {B : Builtins}.

Record t := mk {
  name : string;
  category : string;
  price : number;
  stock : number;
  description : string;
  url : option string;
  updatedAt : option string
}.

End Def.
End NewProduct.

(** ** Effects

    What a handler does besides updating its component state, in program
    order: the axios calls, the toasts (with the identity key when one is
    given), console output, the onAdd callback and the file download. *)
Section Effects.
Context {B : Builtins}.

Inductive event :=
| HttpGet (endpoint : string)
| HttpPost (endpoint : string) (body : NewProduct.t)
| HttpPostRow (endpoint : string) (body : Product.t)
| HttpPut (endpoint : string) (body : Product.t)
| HttpDelete (endpoint : string)
| ToastError (message : string) (key : option string)
| ToastSuccess (message : string)
| ConsoleLog (label : string)
| ConsoleError (label : string)
| OnAdd (candidate : NewProduct.t)
| Download (fileName : string) (content : string).

Definition isNetworkCall (e : event) : bool :=
  match e with
  | HttpGet _ | HttpPost _ _ | HttpPostRow _ _ | HttpPut _ _ | HttpDelete _ => true
  | _ => false
  end.

(** Array.prototype.sort with a comparator: a stable sort; the comparator
    result puts [a] after [b] when it is positive (NaN counts as zero). *)
Fixpoint sortInsert (A : Type) (cmp : A -> A -> number) (x : A) (l : list A) : list A :=
  match l with
  | [] => [x]
  | y :: l' =>
      if num_ltb (num_of_Z 0) (cmp x y) then y :: sortInsert cmp x l'
      else x :: y :: l'
  end.

Fixpoint sorted (A : Type) (cmp : A -> A -> number) (l : list A) : list A :=
  match l with
  | [] => []
  | x :: l' => sortInsert cmp x (sorted cmp l')
  end.

End Effects.

(** ** Arrays as shared objects

    filter and slice allocate a new array; sort reorders the array it is
    called on and returns that same array.  A heap maps addresses to array
    contents, and the array methods run in ExtLib's state monad over it. *)
Module Heap.
Section Defs.
Context {B : Builtins}.
Variable A : Type.

Import MonadNotation.
Local Open Scope monad_scope.

Definition ref := nat.
Definition heap := list (list A).

Definition read (h : heap) (r : ref) : list A := nth r h [].

Fixpoint update (h : heap) (r : ref) (l : list A) : heap :=
  match h, r with
  | [], _ => []
  | _ :: h', O => l :: h'
  | a :: h', S r' => a :: update h' r' l
  end.

Definition alloc (l : list A) : state heap ref :=
  h <- get ;; put (h ++ [l]) ;; ret (length h).

Definition filter (f : A -> bool) (r : ref) : state heap ref :=
  h <- get ;; alloc (List.filter f (read h r)).

Definition slice (from to : nat) (r : ref) : state heap ref :=
  h <- get ;; alloc (firstn (to - from) (skipn from (read h r))).

Definition sort (cmp : A -> A -> number) (r : ref) : state heap ref :=
  h <- get ;; put (update h r (sorted cmp (read h r))) ;; ret r.

End Defs.
Arguments slice {A} from to r.
Arguments read {A} h r.
Arguments alloc {A} l.
End Heap.

(** ** ProductList (src/unnamed/part_001) *)
Module ProductList.
Section Defs.
Context {B : Builtins}.

Import MonadNotation.
Local Open Scope monad_scope.

(** The component state the handlers read and set. *)
Record State := mkState {
  products : list Product.t;
  editingProduct : option Product.t;
  isAddFormOpen : bool
}.

Definition setProducts (l : list Product.t) (st : State) : State :=
  mkState l (editingProduct st) (isAddFormOpen st).

Definition endpoint : string := "https://react-store-2wpq.onrender.com/products".

(** a.toLowerCase() === b.toLowerCase() *)
Definition sameName (a b : string) : bool :=
  Str.toLowerCase a =? Str.toLowerCase b.

(** product.stock < 10 *)
Definition lowStock (p : Product.t) : bool :=
  num_ltb (Product.stock p) (num_of_Z 10).

Definition lowStockAlert (p : Product.t) : event :=
  ToastError
    ("Low stock alert: " +++ Product.name p +++ " has only "
       +++ num_to_string (Product.stock p) +++ " units left!")
    (Some ("low-stock-" +++ Product.id p)).

Definition duplicateEntry (n : string) : event :=
  ToastError ("Duplicate entry: " +++ Str.quoted n +++ " already exists!") None.

(** fetchProducts: [response] is the array axios.get resolves with, or
    [None] when the call rejects. *)
Definition fetchProducts (response : option (list Product.t)) (st : State)
  : State * list event :=
  match response with
  | Some fetchedProducts =>
      (setProducts fetchedProducts st,
       HttpGet endpoint :: ConsoleLog "Fetched response:" ::
       flat_map (fun product => if lowStock product then [lowStockAlert product] else [])
                fetchedProducts)
  | None =>
      (st, [HttpGet endpoint; ToastError "Failed to fetch products!" None;
            ConsoleError "Fetch products error:"])
  end.

(** addProduct: [response] is the record axios.post resolves with, or
    [None] when the call rejects; it is looked at only if the call is made. *)
Definition addProduct (response : option Product.t) (product : NewProduct.t) (st : State)
  : State * list event :=
  if existsb (fun p => sameName (Product.name p) (NewProduct.name product)) (products st)
  then (st, [duplicateEntry (NewProduct.name product)])
  else
    match response with
    | Some data =>
        (mkState (products st ++ [data]) (editingProduct st) false,
         [HttpPost endpoint product;
          ToastSuccess ("Product " +++ Str.quoted (NewProduct.name product)
                          +++ " added successfully!")])
    | None =>
        (st, [HttpPost endpoint product; ToastError "Failed to add product!" None;
              ConsoleError "Add product error:"])
    end.

(** addProduct as the closure it is.  The body reads [products] from the
    render the function was created in, whose state is [captured]; its
    setters act on the state [st] of the component at the time they are
    called.  [addProduct response product st] above is the call from the
    current render, where the two are the same state. *)
Definition addProductOf (captured : State) (response : option Product.t)
  (product : NewProduct.t) (st : State) : State * list event :=
  if existsb (fun p => sameName (Product.name p) (NewProduct.name product))
             (products captured)
  then (st, [duplicateEntry (NewProduct.name product)])
  else
    match response with
    | Some data =>
        (mkState (products captured ++ [data]) (editingProduct st) false,
         [HttpPost endpoint product;
          ToastSuccess ("Product " +++ Str.quoted (NewProduct.name product)
                          +++ " added successfully!")])
    | None =>
        (st, [HttpPost endpoint product; ToastError "Failed to add product!" None;
              ConsoleError "Add product error:"])
    end.

(** updateProduct *)
Definition updateProduct (response : option Product.t) (updatedProduct : Product.t) (st : State)
  : State * list event :=
  if existsb (fun p => sameName (Product.name p) (Product.name updatedProduct)
                       && negb (Product.id p =? Product.id updatedProduct))
             (products st)
  then (st, [duplicateEntry (Product.name updatedProduct)])
  else
    let target := endpoint +++ "/" +++ Product.id updatedProduct in
    match response with
    | Some data =>
        (mkState
           (map (fun p => if Product.id p =? Product.id updatedProduct then data else p)
                (products st))
           None (isAddFormOpen st),
         HttpPut target updatedProduct ::
         ToastSuccess ("Product " +++ Str.quoted (Product.name updatedProduct)
                         +++ " updated successfully!") ::
         (if lowStock data then [lowStockAlert data] else []))
    | None =>
        (st, [HttpPut target updatedProduct; ToastError "Failed to update product!" None;
              ConsoleError "Update product error:"])
    end.

(** deleteProduct: [ok] tells whether axios.delete resolves. *)
Definition deleteProduct (ok : bool) (id : string) (st : State) : State * list event :=
  let productToDelete := find (fun p => Product.id p =? id) (products st) in
  let target := endpoint +++ "/" +++ id in
  if ok then
    (setProducts (List.filter (fun p => negb (Product.id p =? id)) (products st)) st,
     [HttpDelete target;
      ToastSuccess ("Product "
                      +++ Str.quoted (match productToDelete with
                                      | Some p => Product.name p
                                      | None => "undefined"
                                      end)
                      +++ " deleted successfully!")])
  else
    (st, [HttpDelete target; ToastError "Failed to delete product!" None;
          ConsoleError "Delete product error:"]).

(** The comparator of filteredProducts. *)
Definition compareBy (sortBy : string) (a b : Product.t) : number :=
  if sortBy =? "price-asc" then num_sub (Product.price a) (Product.price b)
  else if sortBy =? "price-desc" then num_sub (Product.price b) (Product.price a)
  else if sortBy =? "name-asc" then localeCompare (Product.name a) (Product.name b)
  else if sortBy =? "name-desc" then localeCompare (Product.name b) (Product.name a)
  else num_of_Z 0.

(** filteredProducts, computed at every render from the array [products]
    of the state: two filters, then a sort of the filtered copy. *)
Definition filteredProducts (search categoryFilter sortBy : string) (products : Heap.ref)
  : state (Heap.heap Product.t) Heap.ref :=
  bySearch <- Heap.filter
                (fun p => Str.includes (Str.toLowerCase (Product.name p))
                                       (Str.toLowerCase search))
                products ;;
  byCategory <- Heap.filter
                  (fun p => if negb (categoryFilter =? EmptyString)
                            then Product.category p =? categoryFilter else true)
                  bySearch ;;
  Heap.sort (compareBy sortBy) byCategory.

End Defs.
End ProductList.

(** ** AddProductForm (src/src/components/AddProductForm.tsx) *)
Module AddProductForm.
Section Defs.
Context {B : Builtins}.

Record State := mkState {
  product : NewProduct.t;
  isGenerating : bool
}.

(** The empty form that useState starts with and handleSubmit resets to. *)
Definition emptyProduct : NewProduct.t :=
  NewProduct.mk EmptyString EmptyString (num_of_Z 0) (num_of_Z 0) EmptyString
                (Some EmptyString) None.

Definition api : string := "/api/products".

(** handleSubmit; [now] is new Date().toISOString(). *)
Definition handleSubmit (now : string) (st : State) : State * list event :=
  let p := product st in
  if (NewProduct.name p =? EmptyString) || (NewProduct.category p =? EmptyString)
     || num_leb (NewProduct.price p) (num_of_Z 0)
     || num_ltb (NewProduct.stock p) (num_of_Z 0)
  then (st, [ToastError "Please fill all required fields with valid values!" None])
  else
    let newProduct :=
      NewProduct.mk (NewProduct.name p) (NewProduct.category p) (NewProduct.price p)
                    (NewProduct.stock p) (NewProduct.description p) (NewProduct.url p)
                    (Some now) in
    (mkState emptyProduct (isGenerating st),
     [OnAdd newProduct; ToastSuccess "Product added successfully!"]).

(** *** exportToCSV *)

Definition csvHeader : string := "ID,Name,Category,Price,Stock,Description,URL,UpdatedAt".

(** The template literal of a row: eight quoted values with commas
    between them; the description has its double quotes doubled. *)
Definition csvRow (p : Product.t) : string :=
  Str.join ","
    [Str.quoted (Product.id p);
     Str.quoted (Product.name p);
     Str.quoted (Product.category p);
     Str.quoted (num_to_string (Product.price p));
     Str.quoted (num_to_string (Product.stock p));
     Str.quoted (Str.doubleQuotes (Product.description p));
     Str.quoted (Str.orElse (Product.url p) EmptyString);
     Str.quoted (Str.orElse (Product.updatedAt p) EmptyString)].

Definition csvContent (products : list Product.t) : string :=
  Str.join (String Str.newline EmptyString) ([csvHeader] ++ map csvRow products).

(** [response] is the array axios.get resolves with, or [None] when the
    call rejects. *)
Definition exportToCSV (response : option (list Product.t)) : list event :=
  match response with
  | Some products =>
      [HttpGet api; Download "products.csv" (csvContent products);
       ToastSuccess "Products exported to CSV!"]
  | None =>
      [HttpGet api; ToastError "Failed to export to CSV!" None;
       ConsoleError "Export to CSV error:"]
  end.

(** *** handleBulkUpload *)

(** The callback of lines.map: the first eight pieces of the line, null
    when one of the first five is undefined or empty.  [now] is the
    timestamp taken when the line has no updatedAt. *)
Definition parseLine (now : string) (line : string) : option Product.t :=
  let pieces := Str.split Str.comma line in
  let id := nth_error pieces 0 in
  let name := nth_error pieces 1 in
  let category := nth_error pieces 2 in
  let price := nth_error pieces 3 in
  let stock := nth_error pieces 4 in
  let description := nth_error pieces 5 in
  let url := nth_error pieces 6 in
  let updatedAt := nth_error pieces 7 in
  if negb (Str.truthy id) || negb (Str.truthy name) || negb (Str.truthy category)
     || negb (Str.truthy price) || negb (Str.truthy stock)
  then None
  else Some (Product.mk (Str.the id) (Str.the name) (Str.the category)
                        (Number (Str.the price)) (Number (Str.the stock))
                        (Str.orElse description EmptyString)
                        (Str.orUndefined url)
                        (Some (Str.orElse updatedAt now))).

(** text.split(LF).slice(1) *)
Definition dataLines (text : string) : list string :=
  skipn 1 (Str.split Str.newline text).

(** lines.map(...).filter(p => p !== null); [clock i] is the time at
    which line [i] is mapped. *)
Fixpoint parseLines (clock : nat -> string) (i : nat) (lines : list string)
  : list Product.t :=
  match lines with
  | [] => []
  | line :: rest =>
      match parseLine (clock i) line with
      | Some p => p :: parseLines clock (S i) rest
      | None => parseLines clock (S i) rest
      end
  end.

Definition newProducts (clock : nat -> string) (text : string) : list Product.t :=
  parseLines clock 0 (dataLines text).

Definition candidateOf (p : Product.t) : NewProduct.t :=
  NewProduct.mk (Product.name p) (Product.category p) (Product.price p) (Product.stock p)
                (Product.description p) (Product.url p) (Product.updatedAt p).

(** The for loop: [postOk i] tells whether the POST of the i-th candidate
    resolves.  onAdd returns without throwing (the list component passes
    an async function). *)
Fixpoint upload (postOk : nat -> bool) (i : nat) (candidates : list Product.t)
  (successCount : nat) : list event * nat :=
  match candidates with
  | [] => ([], successCount)
  | p :: rest =>
      if postOk i then
        let (events, n) := upload postOk (S i) rest (S successCount) in
        (HttpPostRow api p :: OnAdd (candidateOf p) :: events, n)
      else
        let (events, n) := upload postOk (S i) rest successCount in
        (HttpPostRow api p
           :: ConsoleError ("Failed to upload product " +++ Product.id p +++ ":")
           :: ToastError ("Failed to upload " +++ Str.quoted (Product.name p)) None
           :: events, n)
  end.

(** [file] is the text the FileReader loads from the chosen file, [None]
    when no file was chosen. *)
Definition handleBulkUpload (file : option string) (clock : nat -> string)
  (postOk : nat -> bool) : list event :=
  match file with
  | None => []
  | Some text =>
      let (events, successCount) := upload postOk 0 (newProducts clock text) 0 in
      events ++
      (if (0 <? successCount)%nat
       then [ToastSuccess (num_to_string (num_of_Z (Z.of_nat successCount))
                             +++ " product(s) uploaded successfully!")]
       else [])
  end.

End Defs.
End AddProductForm.

(** ** The older copy of the form (second document of
    src/src/components/Navbar.tsx): its CSV export joins the raw values
    and then replaces every comma of the row by a space. *)
Module LegacyAddProductForm.
Section Defs.
Context {B : Builtins}.

Definition csvHeader : string := "ID,Name,Category,Price,Stock,Description,URL,UpdatedAt".

Definition csvRow (p : Product.t) : string :=
  Str.commasToSpaces
    (Str.join ","
       [Product.id p; Product.name p; Product.category p;
        num_to_string (Product.price p); num_to_string (Product.stock p);
        Product.description p;
        Str.orElse (Product.url p) EmptyString;
        Str.orElse (Product.updatedAt p) EmptyString]).

Definition csvContent (products : list Product.t) : string :=
  Str.join (String Str.newline EmptyString) ([csvHeader] ++ map csvRow products).

End Defs.
End LegacyAddProductForm.

(** ** AdminDashboard (src/unnamed/part_003) *)
Module AdminDashboard.
Section Defs.
Context {B : Builtins}.

Import MonadNotation.
Local Open Scope monad_scope.

Definition withUpdatedAt (now : string) (p : Product.t) : Product.t :=
  Product.mk (Product.id p) (Product.name p) (Product.category p) (Product.price p)
             (Product.stock p) (Product.description p) (Product.url p)
             (Some (Str.orElse (Product.updatedAt p) now)).

(** response.data.map(...): [clock i] is what new Date().toISOString()
    gives when the product at index [i] is mapped; it is evaluated for
    the products without date only. *)
Fixpoint dated (clock : nat -> string) (i : nat) (data : list Product.t)
  : list Product.t :=
  match data with
  | [] => []
  | p :: rest => withUpdatedAt (clock i) p :: dated clock (S i) rest
  end.

(** fetchProducts of the mount effect: the state is the product array. *)
Definition fetchProducts (response : option (list Product.t)) (clock : nat -> string)
  (products : list Product.t) : list Product.t * list event :=
  match response with
  | Some data => (dated clock 0 data, [HttpGet "/api/products"])
  | None =>
      (products, [HttpGet "/api/products"; ToastError "Failed to fetch products!" None;
                  ConsoleError "Fetch products error:"])
  end.

(** new Date(p.updatedAt!).getTime(); an undefined date is invalid. *)
Definition getTime (p : Product.t) : number :=
  match Product.updatedAt p with
  | Some s => Date_getTime s
  | None => num_nan
  end.

(** products.filter(p => p.stock < 10).sort((a, b) => a.stock - b.stock).slice(0, 5) *)
Definition lowStockProducts (products : Heap.ref) : state (Heap.heap Product.t) Heap.ref :=
  low <- Heap.filter (fun p => num_ltb (Product.stock p) (num_of_Z 10)) products ;;
  ordered <- Heap.sort (fun a b => num_sub (Product.stock a) (Product.stock b)) low ;;
  Heap.slice 0 5 ordered.

(** products.sort((a, b) => time(b) - time(a)).slice(0, 5) *)
Definition recentUpdates (products : Heap.ref) : state (Heap.heap Product.t) Heap.ref :=
  ordered <- Heap.sort (fun a b => num_sub (getTime b) (getTime a)) products ;;
  Heap.slice 0 5 ordered.

End Defs.
End AdminDashboard.

(** ** AuthContext (src/src/context/AuthContext.tsx) *)
Module AuthContext.
Section Defs.
Context {B : Builtins}.

(** What a call ends with: a value, or a thrown error with its message. *)
Inductive outcome (A : Type) :=
| Returned (a : A)
| Thrown (message : string).
Arguments Returned {A} a.
Arguments Thrown {A} message.

(** The provider state and the entry [user] of localStorage. *)
Record State := mkState {
  user : option User.t;
  storage : option string
}.

(** The initializer of useState: the saved entry is parsed when it is
    truthy; JSON.parse throws on text that is not JSON. *)
Definition restore (savedUser : option string) : outcome (option User.t) :=
  if Str.truthy savedUser then
    match JSON_parse (Str.the savedUser) with
    | Some parsed => Returned parsed
    | None => Thrown "SyntaxError"
    end
  else Returned None.

(** The effect on [user]: setItem with the serialized user, or removeItem. *)
Definition syncStorage (u : option User.t) : option string :=
  match u with
  | Some v => Some (JSON_stringify v)
  | None => None
  end.

(** First render of the provider: the initializer, then the effect. *)
Definition mount (savedUser : option string) : outcome State :=
  match restore savedUser with
  | Returned u => Returned (mkState u (syncStorage u))
  | Thrown m => Thrown m
  end.

(** login: [response] is the account list GET /users answers with, [None]
    when fetch rejects.  A new user object always fires the effect. *)
Definition login (response : option (list Account.t)) (username password : string)
  (st : State) : State * outcome unit :=
  match response with
  | None => (st, Thrown "Failed to fetch")
  | Some users =>
      match find (fun u => (Account.username u =? username)
                           && (Account.password u =? password)) users with
      | Some foundUser =>
          let userData := User.mk (Account.username foundUser) (Account.role foundUser) in
          (mkState (Some userData) (syncStorage (Some userData)), Returned tt)
      | None => (st, Thrown "Invalid credentials")
      end
  end.

(** logout: setUser(null); the effect runs only if the state changed. *)
Definition logout (st : State) : State :=
  match user st with
  | Some _ => mkState None (syncStorage None)
  | None => st
  end.

End Defs.
Arguments Returned {A} a.
Arguments Thrown {A} message.
End AuthContext.

(** ** A reference implementation of the built-ins

    An executable instance used to run the model on concrete inputs.  It
    follows ECMAScript on the inputs it is run on here: numbers that are
    integers (below 2^53 in magnitude) and their decimal literals,
    timestamps in the format toISOString writes, and the JSON text that
    JSON.stringify writes for a session.  Other numeric literals and other
    date formats come out as NaN, other JSON text as a syntax error, and
    localeCompare compares code units. *)
Module Reference.

Inductive num :=
| NaN
| Int (z : Z).

Definition isWhiteSpace (c : ascii) : bool :=
  let n := nat_of_ascii c in
  ((n =? 9) || (n =? 10) || (n =? 11) || (n =? 12) || (n =? 13) || (n =? 32)
   || (n =? 160))%nat.

Fixpoint trimStart (s : string) : string :=
  match s with
  | EmptyString => EmptyString
  | String c s' => if isWhiteSpace c then trimStart s' else s
  end.

Fixpoint trimEnd (s : string) : string :=
  match s with
  | EmptyString => EmptyString
  | String c s' =>
      let t := trimEnd s' in
      if isWhiteSpace c && (t =? EmptyString) then EmptyString else String c t
  end.

Definition digitValue (c : ascii) : option Z :=
  let n := nat_of_ascii c in
  if ((48 <=? n) && (n <=? 57))%nat then Some (Z.of_nat (n - 48)) else None.

Fixpoint digits (acc : Z) (s : string) : option Z :=
  match s with
  | EmptyString => Some acc
  | String c s' =>
      match digitValue c with
      | Some d => digits (10 * acc + d) s'
      | None => None
      end
  end.

Definition unsigned (s : string) : num :=
  match s with
  | EmptyString => NaN
  | _ => match digits 0 s with
         | Some z => Int z
         | None => NaN
         end
  end.

Definition negate (n : num) : num :=
  match n with
  | NaN => NaN
  | Int z => Int (- z)
  end.

(** Number(s): white space is trimmed, the empty string is 0. *)
Definition toNumber (s : string) : num :=
  match trimEnd (trimStart s) with
  | EmptyString => Int 0
  | String c r as t =>
      if (c =? "-")%char then negate (unsigned r)
      else if (c =? "+")%char then unsigned r
      else unsigned t
  end.

Definition toString (n : num) : string :=
  match n with
  | NaN => "NaN"
  | Int z => DecimalString.NilZero.string_of_int (Z.to_int z)
  end.

Definition ltb (a b : num) : bool :=
  match a, b with
  | Int x, Int y => (x <? y)%Z
  | _, _ => false
  end.

Definition leb (a b : num) : bool :=
  match a, b with
  | Int x, Int y => (x <=? y)%Z
  | _, _ => false
  end.

Definition sub (a b : num) : num :=
  match a, b with
  | Int x, Int y => Int (x - y)
  | _, _ => NaN
  end.

(** Days from 1970-01-01 to a date of the proleptic Gregorian calendar. *)
Definition daysFromCivil (y m d : Z) : Z :=
  let y' := if (m <=? 2)%Z then (y - 1)%Z else y in
  let era := (y' / 400)%Z in
  let yoe := (y' - era * 400)%Z in
  let mp := ((m + 9) mod 12)%Z in
  let doy := ((153 * mp + 2) / 5 + d - 1)%Z in
  let doe := (yoe * 365 + yoe / 4 - yoe / 100 + doy)%Z in
  (era * 146097 + doe - 719468)%Z.

Definition isLeap (y : Z) : bool :=
  ((y mod 4 =? 0) && (negb (y mod 100 =? 0) || (y mod 400 =? 0)))%Z.

Definition daysInMonth (y m : Z) : Z :=
  if (m =? 2)%Z then (if isLeap y then 29 else 28)%Z
  else if ((m =? 4) || (m =? 6) || (m =? 9) || (m =? 11))%Z then 30%Z
  else 31%Z.

Definition charAt (s : string) (i : nat) (c : ascii) : bool :=
  match String.get i s with
  | Some c' => Ascii.eqb c' c
  | None => false
  end.

Definition numberAt (s : string) (from len : nat) : option Z :=
  digits 0 (substring from len s).

(** new Date(s).getTime() for s = YYYY-MM-DDTHH:mm:ss.sssZ. *)
Definition getTime (s : string) : num :=
  if ((String.length s =? 24)%nat && charAt s 4 "-" && charAt s 7 "-"
      && charAt s 10 "T" && charAt s 13 ":" && charAt s 16 ":"
      && charAt s 19 "." && charAt s 23 "Z")
  then
    match numberAt s 0 4, numberAt s 5 2, numberAt s 8 2, numberAt s 11 2,
          numberAt s 14 2, numberAt s 17 2, numberAt s 20 3 with
    | Some y, Some m, Some d, Some h, Some mi, Some sec, Some ms =>
        if ((1 <=? m) && (m <=? 12) && (1 <=? d) && (d <=? daysInMonth y m)
            && (h <=? 23) && (mi <=? 59) && (sec <=? 59))%Z
        then Int ((((daysFromCivil y m d * 24 + h) * 60 + mi) * 60 + sec) * 1000 + ms)
        else NaN
    | _, _, _, _, _, _, _ => NaN
    end
  else NaN.

Definition compareCodeUnits (a b : string) : num :=
  match String.compare a b with
  | Lt => Int (-1)
  | Eq => Int 0
  | Gt => Int 1
  end.

(** *** The JSON text of a session *)

Definition backslash : ascii := ascii_of_nat 92.

Definition hexDigit (n : nat) : ascii :=
  if (n <? 10)%nat then ascii_of_nat (48 + n) else ascii_of_nat (87 + n).

Definition hexValue (c : ascii) : option nat :=
  let n := nat_of_ascii c in
  if ((48 <=? n) && (n <=? 57))%nat then Some (n - 48)
  else if ((97 <=? n) && (n <=? 102))%nat then Some (n - 87)
  else if ((65 <=? n) && (n <=? 70))%nat then Some (n - 55)
  else None.

Definition escapeChar (c : ascii) : string :=
  let n := nat_of_ascii c in
  if (n =? 34)%nat then String backslash (String Str.dquote EmptyString)
  else if (n =? 92)%nat then String backslash (String backslash EmptyString)
  else if (n =? 8)%nat then String backslash "b"
  else if (n =? 12)%nat then String backslash "f"
  else if (n =? 10)%nat then String backslash "n"
  else if (n =? 13)%nat then String backslash "r"
  else if (n =? 9)%nat then String backslash "t"
  else if (n <? 32)%nat
       then String backslash
              ("u00" +++ String (hexDigit (n / 16)) (String (hexDigit (n mod 16)) EmptyString))
  else String c EmptyString.

Fixpoint escape (s : string) : string :=
  match s with
  | EmptyString => EmptyString
  | String c s' => escapeChar c +++ escape s'
  end.

Definition jsonString (s : string) : string := Str.quoted (escape s).

Definition stringify (u : User.t) : string :=
  "{" +++ Str.quoted "username" +++ ":" +++ jsonString (User.username u) +++ ","
      +++ Str.quoted "role" +++ ":" +++ jsonString (User.role u) +++ "}".

(** Removes [p] from the front of [s]. *)
Fixpoint dropPrefix (p s : string) : option string :=
  match p, s with
  | EmptyString, _ => Some s
  | String a p', String b s' => if Ascii.eqb a b then dropPrefix p' s' else None
  | String _ _, EmptyString => None
  end.

Definition unescaped (c : ascii) : option ascii :=
  let n := nat_of_ascii c in
  if (n =? 34)%nat then Some c
  else if (n =? 92)%nat then Some c
  else if (n =? 47)%nat then Some c
  else if (n =? 98)%nat then Some (ascii_of_nat 8)
  else if (n =? 102)%nat then Some (ascii_of_nat 12)
  else if (n =? 110)%nat then Some (ascii_of_nat 10)
  else if (n =? 114)%nat then Some (ascii_of_nat 13)
  else if (n =? 116)%nat then Some (ascii_of_nat 9)
  else None.

(** Reads the characters of a JSON string up to its closing quote:
    the string read and the text after the quote. *)
Fixpoint readString (s : string) : option (string * string) :=
  match s with
  | EmptyString => None
  | String c s' =>
      if Ascii.eqb c Str.dquote then Some (EmptyString, s')
      else if Ascii.eqb c backslash then
        match s' with
        | String e s'' =>
            if Ascii.eqb e "u" then
              match s'' with
              | String h1 (String h2 (String h3 (String h4 rest))) =>
                  match hexValue h1, hexValue h2, hexValue h3, hexValue h4 with
                  | Some 0%nat, Some 0%nat, Some a, Some b =>
                      match readString rest with
                      | Some (r, after) => Some (String (ascii_of_nat (16 * a + b)) r, after)
                      | None => None
                      end
                  | _, _, _, _ => None
                  end
              | _ => None
              end
            else
              match unescaped e, readString s'' with
              | Some c', Some (r, after) => Some (String c' r, after)
              | _, _ => None
              end
        | EmptyString => None
        end
      else if (nat_of_ascii c <? 32)%nat then None
      else
        match readString s' with
        | Some (r, after) => Some (String c r, after)
        | None => None
        end
  end.

(** JSON.parse on the text of a session: null, or the object that
    [stringify] writes. *)
Definition parse (s : string) : option (option User.t) :=
  if s =? "null" then Some None
  else
    match dropPrefix ("{" +++ Str.quoted "username" +++ ":" +++ String Str.dquote EmptyString) s with
    | None => None
    | Some s1 =>
        match readString s1 with
        | None => None
        | Some (username, s2) =>
            match dropPrefix ("," +++ Str.quoted "role" +++ ":" +++ String Str.dquote EmptyString) s2 with
            | None => None
            | Some s3 =>
                match readString s3 with
                | Some (role, rest) =>
                    if rest =? "}" then Some (Some (User.mk username role)) else None
                | None => None
                end
            end
        end
    end.

Definition builtins : Builtins :=
  {| number := num;
     num_of_Z := Int;
     num_nan := NaN;
     Number := toNumber;
     num_to_string := toString;
     num_ltb := ltb;
     num_leb := leb;
     num_sub := sub;
     Date_getTime := getTime;
     localeCompare := compareCodeUnits;
     JSON_stringify := stringify;
     JSON_parse := parse |}.

End Reference.

(** * Further components

    The other handlers of the files above and the components that use
    them: the login form, the route guard, the navigation bar, the route
    table, the PDF export and the description generator of the form, the
    metrics of the dashboard and the upload handler of the older form. *)

(** ** Login (second document of src/unnamed/part_003) *)
Module Login.
Section Defs.
Context {B : Builtins}.

(** user?.role === "admin" *)
Definition isAdmin (user : option User.t) : bool :=
  match user with
  | Some u => User.role u =? "admin"
  | None => false
  end.

(** handleSubmit: the provider state it leaves, its toast and the path
    it navigates to, if any.  The handler reads [user] from the render it
    was created in, that is from the state [st] it is called in; any
    error of login lands in the same catch. *)
Definition handleSubmit (response : option (list Account.t)) (username password : string)
  (st : AuthContext.State) : AuthContext.State * list event * option string :=
  match AuthContext.login response username password st with
  | (st', AuthContext.Returned _) =>
      (st', [ToastSuccess ("Logged in as " +++ username +++ "!")],
       Some (if isAdmin (AuthContext.user st) then "/admin" else "/"))
  | (st', AuthContext.Thrown _) =>
      (st', [ToastError "Invalid credentials" None], None)
  end.

End Defs.
End Login.

(** ** PrivateRoute (src/src/components/PrivateRoute.tsx) *)
Module PrivateRoute.

Inductive rendered :=
| Children
| NavigateTo (path : string).

(** if (!user || user.role !== role) return <Navigate to="/" /> *)
Definition render (role : string) (user : option User.t) : rendered :=
  match user with
  | None => NavigateTo "/"
  | Some u => if negb (User.role u =? role) then NavigateTo "/" else Children
  end.

End PrivateRoute.

(** ** Navbar (first document of src/src/components/Navbar.tsx) *)
Module Navbar.
Section Defs.
Context {B : Builtins}.

Inductive item :=
| LinkTo (label path : string)
| LogoutButton.

(** The brand link and the entries of the menu, in the order they are
    rendered. *)
Definition items (user : option User.t) : list item :=
  [LinkTo "My Store" "/"; LinkTo "Products" "/"]
    ++ (if Login.isAdmin user then [LinkTo "Admin Dashboard" "/admin"] else [])
    ++ [match user with
        | Some _ => LogoutButton
        | None => LinkTo "Login" "/login"
        end].

(** handleLogout: logout(), then navigate("/login"). *)
Definition handleLogout (st : AuthContext.State) : AuthContext.State * string :=
  (AuthContext.logout st, "/login").

End Defs.
End Navbar.

(** ** App (src/unnamed/part_006): the paths of its routes; the element
    of /admin is the dashboard inside PrivateRoute with role admin. *)
Module App.

Definition routes : list string := ["/"; "/login"; "/admin"].

Definition adminElement (user : option User.t) : PrivateRoute.rendered :=
  PrivateRoute.render "admin" user.

End App.

(** ** exportToPDF of the form (src/src/components/AddProductForm.tsx)

    The calls on the jsPDF document, in order.  The text of the price,
    p.price.toFixed(2), and the currency sign written before it are
    parameters. *)
Module ExportToPDF.
Section Defs.
Context {B : Builtins}.
Variable toFixed2 : number -> string.
Variable currency : string.

Inductive docOp :=
| SetFontSize (size : Z)
| Text (text : string) (x y : Z) (maxWidth : option Z)
| AddPage
| Save (fileName : string).

Definition lineText (p : Product.t) : string :=
  Product.id p +++ " | " +++ Product.name p +++ " | " +++ Product.category p
    +++ " | " +++ currency +++ toFixed2 (Product.price p)
    +++ " | Stock: " +++ num_to_string (Product.stock p)
    +++ " | " +++ Product.description p
    +++ " | " +++ Str.orElse (Product.url p) "No URL"
    +++ " | Updated: " +++ Str.orElse (Product.updatedAt p) "N/A".

(** products.forEach: the line at [y], then y += 10 and a new page with
    y = 20 once y is above 270. *)
Fixpoint productLines (products : list Product.t) (y : Z) : list docOp :=
  match products with
  | [] => []
  | p :: rest =>
      Text (lineText p) 20 y (Some 170%Z)
        :: (if (270 <? y + 10)%Z then AddPage :: productLines rest 20
            else productLines rest (y + 10))
  end.

(** [response] is the array axios.get resolves with, or [None] when the
    call rejects. *)
Definition exportToPDF (response : option (list Product.t)) : list docOp * list event :=
  match response with
  | Some products =>
      ([SetFontSize 16; Text "Product List" 20 20 None; SetFontSize 12]
         ++ productLines products 30 ++ [Save "products.pdf"],
       [HttpGet "/api/products"; ToastSuccess "Products exported to PDF!"])
  | None =>
      ([], [HttpGet "/api/products"; ToastError "Failed to export to PDF!" None;
            ConsoleError "Export to PDF error:"])
  end.

End Defs.
End ExportToPDF.

(** ** generateDescription of the form (src/src/components/AddProductForm.tsx) *)
Module GenerateDescription.
Section Defs.
Context {B : Builtins}.

(** String.prototype.trim. *)
Definition trim (s : string) : string := Reference.trimEnd (Reference.trimStart s).

(** What the POST to the text-generation endpoint ends with: the
    generated text, or a failure with the status of the response when
    there is one. *)
Inductive reply :=
| Generated (text : string)
| Failed (status : option nat).

(** The request, when one is sent. *)
Record call := mkCall {
  endpoint : string;
  inputs : string;
  authorization : string
}.

Definition model : string :=
  "https://api-inference.huggingface.co/models/mistralai/Mixtral-8x7B-Instruct-v0.1".

Definition prompt (p : NewProduct.t) : string :=
  "Create a concise product description (50-70 words) for a "
    +++ NewProduct.category p +++ " product named " +++ Str.quoted (NewProduct.name p)
    +++ ". Highlight key features and appeal: ".

Definition withDescription (p : NewProduct.t) (description : string) : NewProduct.t :=
  NewProduct.mk (NewProduct.name p) (NewProduct.category p) (NewProduct.price p)
                (NewProduct.stock p) description (NewProduct.url p)
                (NewProduct.updatedAt p).

(** [key] is the value of VITE_API_KEY; [answer] is looked at only if the
    request is sent. *)
Definition generateDescription (key : option string) (answer : reply)
  (st : AddProductForm.State)
  : AddProductForm.State * option call * list event :=
  let product := AddProductForm.product st in
  if (NewProduct.name product =? EmptyString) || (NewProduct.category product =? EmptyString)
  then (st, None, [ToastError "Please enter a product name and category first!" None])
  else if negb (Str.truthy key)
  then (st, None,
        [ToastError "Hugging Face API key is missing. Please configure VITE_API_KEY in .env!"
                    None;
         ConsoleError "Missing VITE_API_KEY in .env"])
  else
    let sent := Some (mkCall model (prompt product) ("Bearer " +++ Str.the key)) in
    match answer with
    | Generated text =>
        (AddProductForm.mkState (withDescription product (trim text)) false, sent,
         [ToastSuccess "Description generated successfully!"])
    | Failed status =>
        (AddProductForm.mkState product false, sent,
         [ToastError
            (match status with
             | Some 429%nat => "Rate limit exceeded. Please wait and try again."
             | Some 503%nat => "Model is loading. Please try again in a few seconds."
             | _ => "Failed to generate description. Please try again later."
             end) None;
          ConsoleError "Hugging Face API error:"])
    end.

End Defs.
End GenerateDescription.

(** ** The metrics of AdminDashboard (src/unnamed/part_003) *)
Module DashboardMetrics.
Section Defs.
Context {B : Builtins}.

Definition totalProducts (products : list Product.t) : nat := length products.

Definition lowStockCount (products : list Product.t) : nat :=
  length (List.filter (fun p => num_ltb (Product.stock p) (num_of_Z 10)) products).

(** The three stock ranges with the number of products in each; a range
    without product is left out. *)
Definition stockDistribution (products : list Product.t) : list (string * nat) :=
  List.filter (fun d => (0 <? snd d)%nat)
    [("0-10",
      length (List.filter (fun p => num_leb (Product.stock p) (num_of_Z 10)) products));
     ("11-50",
      length (List.filter (fun p => num_ltb (num_of_Z 10) (Product.stock p)
                                    && num_leb (Product.stock p) (num_of_Z 50))
                          products));
     ("51+",
      length (List.filter (fun p => num_ltb (num_of_Z 50) (Product.stock p)) products))].

End Defs.
End DashboardMetrics.

(** ** handleBulkUpload of the older form (second document of
    src/src/components/Navbar.tsx): the lines are parsed by the same
    code as in the form above; the rows go to the local backend. *)
Module LegacyBulkUpload.
Section Defs.
Context {B : Builtins}.

Definition api : string := "http://localhost:3001/products".

Fixpoint upload (postOk : nat -> bool) (i : nat) (candidates : list Product.t)
  (successCount : nat) : list event * nat :=
  match candidates with
  | [] => ([], successCount)
  | p :: rest =>
      if postOk i then
        let (events, n) := upload postOk (S i) rest (S successCount) in
        (HttpPostRow api p :: OnAdd (AddProductForm.candidateOf p) :: events, n)
      else
        let (events, n) := upload postOk (S i) rest successCount in
        (HttpPostRow api p
           :: ConsoleError ("Failed to upload product " +++ Product.id p +++ ":")
           :: ToastError ("Failed to upload " +++ Str.quoted (Product.name p)) None
           :: events, n)
  end.

Definition handleBulkUpload (file : option string) (clock : nat -> string)
  (postOk : nat -> bool) : list event :=
  match file with
  | None => []
  | Some text =>
      let (events, successCount) :=
        upload postOk 0 (AddProductForm.newProducts clock text) 0 in
      events ++
      (if (0 <? successCount)%nat
       then [ToastSuccess (num_to_string (num_of_Z (Z.of_nat successCount))
                             +++ " product(s) uploaded successfully!")]
       else [])
  end.

End Defs.
End LegacyBulkUpload.

(** ** The form inside the product list

    ProductList renders the form with onAdd = addProduct.  addProduct is
    an async function: called from handleSubmit it runs up to its first
    await (the duplicate toast, or the start of the POST), handleSubmit
    then finishes, and what follows the await runs afterwards. *)
Module FormInList.
Section Defs.
Context {B : Builtins}.

(** The events [handler] are those of handleSubmit; each onAdd in them
    is replaced by the first event of addProduct, and the rest of
    addProduct is put after the handler. *)
Definition submit (now : string) (response : option Product.t)
  (form : AddProductForm.State) (st : ProductList.State)
  : AddProductForm.State * ProductList.State * list event :=
  let (form', handler) := AddProductForm.handleSubmit now form in
  match handler with
  | OnAdd candidate :: afterOnAdd =>
      let (st', added) := ProductList.addProduct response candidate st in
      (form', st', firstn 1 added ++ afterOnAdd ++ skipn 1 added)
  | _ => (form', st, handler)
  end.

(** The onAdd calls of a bulk upload, seen from the list.  The loop of
    handleBulkUpload runs inside the onload callback created when the file
    was chosen and calls the onAdd of that render all along: addProduct
    closed over the state [captured].  A row is handed to onAdd when the
    loop's own POST of it resolved ([postOk i]); [answers i] is what the
    backend answers to the POST that addProduct then makes.  The events
    are those of addProduct, and each call is taken to have settled when
    the loop's POST of the next row does. *)
Fixpoint onAddCalls (captured : ProductList.State) (postOk : nat -> bool)
  (answers : nat -> option Product.t) (i : nat) (rows : list Product.t)
  (st : ProductList.State) : ProductList.State * list event :=
  match rows with
  | [] => (st, [])
  | p :: rest =>
      if postOk i then
        let (st', added) :=
          ProductList.addProductOf captured (answers i) (AddProductForm.candidateOf p) st in
        let (st'', events) := onAddCalls captured postOk answers (S i) rest st' in
        (st'', added ++ events)
      else onAddCalls captured postOk answers (S i) rest st
  end.

(** The upload of the file [text] chosen in the state [st]. *)
Definition bulkUpload (text : string) (clock : nat -> string) (postOk : nat -> bool)
  (answers : nat -> option Product.t) (st : ProductList.State)
  : ProductList.State * list event :=
  onAddCalls st postOk answers 0 (AddProductForm.newProducts clock text) st.

End Defs.
End FormInList.

(** * Vocabulary of the properties

    The predicates and functions the statements below are written with. *)
Section Vocabulary.
Context {B : Builtins}.

(** The key under which names are compared. *)
Definition nameKey (p : Product.t) : string := Str.toLowerCase (Product.name p).




Definition isToast (e : event) : bool :=
  match e with
  | ToastError _ _ | ToastSuccess _ => true
  | _ => false
  end.

(** username and password both equal, compared as strings. *)
Definition matches (username password : string) (a : Account.t) : Prop :=
  Account.username a = username /\ Account.password a = password.

Inductive step : AuthContext.State -> AuthContext.State -> Prop :=
| step_login (response : option (list Account.t)) (username password : string)
    (st : AuthContext.State) :
    step st (fst (AuthContext.login response username password st))
| step_logout (st : AuthContext.State) :
    step st (AuthContext.logout st).

Inductive reachable : AuthContext.State -> Prop :=
| reachable_mount (savedUser : option string) (st : AuthContext.State) :
    AuthContext.mount savedUser = AuthContext.Returned st -> reachable st
| reachable_step (st st' : AuthContext.State) :
    reachable st -> step st st' -> reachable st'.

(** The storage entry is the serialized session, absent when there is none. *)
Definition inSync (st : AuthContext.State) : Prop :=
  AuthContext.storage st = AuthContext.syncStorage (AuthContext.user st).

(** A line is accepted when its first five pieces (id, name, category,
    price, stock) are all there and non-empty. *)
Definition accepted (line : string) : bool :=
  let pieces := Str.split Str.comma line in
  forallb (fun i => Str.truthy (nth_error pieces i)) [0; 1; 2; 3; 4]%nat.

(** The record an accepted line is converted to. *)
Definition converted (now : string) (line : string) : Product.t :=
  let pieces := Str.split Str.comma line in
  Product.mk (Str.the (nth_error pieces 0)) (Str.the (nth_error pieces 1))
             (Str.the (nth_error pieces 2))
             (Number (Str.the (nth_error pieces 3)))
             (Number (Str.the (nth_error pieces 4)))
             (Str.orElse (nth_error pieces 5) EmptyString)
             (Str.orUndefined (nth_error pieces 6))
             (Some (Str.orElse (nth_error pieces 7) now)).

(** The lines with the index the map callback sees them at. *)
Fixpoint indexed (i : nat) (lines : list string) : list (nat * string) :=
  match lines with
  | [] => []
  | line :: rest => (i, line) :: indexed (S i) rest
  end.

Definition isToastSuccess (e : event) : bool :=
  match e with
  | ToastSuccess _ => true
  | _ => false
  end.

(** How many of the first [n] submissions from [i] on succeed. *)
Definition successes (postOk : nat -> bool) (i n : nat) : nat :=
  length (List.filter postOk (seq i n)).

Definition uploadedMessage (n : nat) : string :=
  num_to_string (num_of_Z (Z.of_nat n)) +++ " product(s) uploaded successfully!".

(** A text without comma and without line feed. *)
Definition plain (s : string) : bool :=
  negb (Str.has_char Str.comma s) && negb (Str.has_char Str.newline s).

(** The eight values a row is written from. *)
Definition rowValues (p : Product.t) : list string :=
  [Product.id p; Product.name p; Product.category p;
   num_to_string (Product.price p); num_to_string (Product.stock p);
   Product.description p;
   Str.orElse (Product.url p) EmptyString;
   Str.orElse (Product.updatedAt p) EmptyString].

Definition plainProduct (p : Product.t) : bool := forallb plain (rowValues p).

(** What the import reads back from the row of [p]: the quotes of the
    export stay in every text field and inside what Number is given. *)
Definition reimported (p : Product.t) : Product.t :=
  Product.mk (Str.quoted (Product.id p))
             (Str.quoted (Product.name p))
             (Str.quoted (Product.category p))
             (Number (Str.quoted (num_to_string (Product.price p))))
             (Number (Str.quoted (num_to_string (Product.stock p))))
             (Str.quoted (Str.doubleQuotes (Product.description p)))
             (Some (Str.quoted (Str.orElse (Product.url p) EmptyString)))
             (Some (Str.quoted (Str.orElse (Product.updatedAt p) EmptyString))).

(** The quoted values of a row, as csvRow joins them. *)
Definition rowFields (p : Product.t) : list string :=
  [Str.quoted (Product.id p);
   Str.quoted (Product.name p);
   Str.quoted (Product.category p);
   Str.quoted (num_to_string (Product.price p));
   Str.quoted (num_to_string (Product.stock p));
   Str.quoted (Str.doubleQuotes (Product.description p));
   Str.quoted (Str.orElse (Product.url p) EmptyString);
   Str.quoted (Str.orElse (Product.updatedAt p) EmptyString)].

(** A field as the spec describes it: between double quotes, with the
    double quotes inside it doubled. *)
Definition escapedField (s : string) : string := Str.quoted (Str.doubleQuotes s).

Definition escapedRow (p : Product.t) : string :=
  Str.join "," (map escapedField (rowValues p)).

(** Products in which the description alone may hold a double quote. *)
Definition quotesOnlyInDescription (p : Product.t) : bool :=
  negb (Str.has_char Str.dquote (Product.id p))
  && negb (Str.has_char Str.dquote (Product.name p))
  && negb (Str.has_char Str.dquote (Product.category p))
  && negb (Str.has_char Str.dquote (num_to_string (Product.price p)))
  && negb (Str.has_char Str.dquote (num_to_string (Product.stock p)))
  && negb (Str.has_char Str.dquote (Str.orElse (Product.url p) EmptyString))
  && negb (Str.has_char Str.dquote (Str.orElse (Product.updatedAt p) EmptyString)).

End Vocabulary.

(** ** The notification sink *)

(** Modelled from the spec: the toast library that shows the
    notifications is not part of src/.  Section 4.1 of the spec: a
    notification is deduplicated by an identity key, so that repeated
    triggers for the same item do not multiply, and it is overwritten by
    the latest value when re-triggered.  A toast without a key is always a
    new entry. *)
Module Toaster.
Section Defs.
Context {B : Builtins}.

(** A shown notification: its key, if it was given one, and its text. *)
Definition entry : Type := option string * string.

Definition hasKey (key : string) (t : list entry) : bool :=
  existsb (fun e => match fst e with
                    | Some k => k =? key
                    | None => false
                    end) t.

Definition overwrite (key message : string) (e : entry) : entry :=
  match fst e with
  | Some k => if k =? key then (Some k, message) else e
  | None => e
  end.

(** Modelled from the spec: a keyed notification overwrites the shown one
    with its key, and is a new entry when no shown one has that key. *)
Definition upsert (key message : string) (t : list entry) : list entry :=
  if hasKey key t then map (overwrite key message) t
  else t ++ [(Some key, message)].

Definition notify (t : list entry) (e : event) : list entry :=
  match e with
  | ToastError message (Some key) => upsert key message t
  | ToastError message None => t ++ [(None, message)]
  | ToastSuccess message => t ++ [(None, message)]
  | _ => t
  end.

Definition notifyAll (events : list event) (t : list entry) : list entry :=
  fold_left notify events t.

(** The events that add no unkeyed toast. *)
Definition keyed (e : event) : bool :=
  match e with
  | ToastError _ None | ToastSuccess _ => false
  | _ => true
  end.

(** What an event does to an entry that is already shown. *)
Definition touch (e : event) (x : entry) : entry :=
  match e with
  | ToastError message (Some key) => overwrite key message x
  | _ => x
  end.

Definition present (e : event) (t : list entry) : bool :=
  match e with
  | ToastError _ (Some key) => hasKey key t
  | _ => true
  end.

(** The keys of the shown notifications that have one. *)
Definition keysOf (t : list entry) : list string :=
  flat_map (fun x => match fst x with
                     | Some k => [k]
                     | None => []
                     end) t.

End Defs.
End Toaster.

(** * Vocabulary of the further properties *)
Section FurtherVocabulary.
Context {B : Builtins}.

(** The test of handleSubmit: a blank name or category, a price that is
    not above 0, or a stock below 0. *)
Definition formInvalid (p : NewProduct.t) : bool :=
  (NewProduct.name p =? EmptyString) || (NewProduct.category p =? EmptyString)
  || num_leb (NewProduct.price p) (num_of_Z 0)
  || num_ltb (NewProduct.stock p) (num_of_Z 0).

(** The candidate handleSubmit hands to onAdd: the form with its time. *)
Definition stamped (now : string) (p : NewProduct.t) : NewProduct.t :=
  NewProduct.mk (NewProduct.name p) (NewProduct.category p) (NewProduct.price p)
                (NewProduct.stock p) (NewProduct.description p) (NewProduct.url p)
                (Some now).

Definition isOnAdd (e : event) : bool :=
  match e with
  | OnAdd _ => true
  | _ => false
  end.

Definition isFailureToast (e : event) : bool :=
  match e with
  | ToastError _ _ => true
  | _ => false
  end.

(** The lines of the document that are written with a maximal width:
    text, x, y and width. *)
Definition bodyLines (ops : list ExportToPDF.docOp) : list (string * Z * Z * Z) :=
  flat_map (fun op => match op with
                      | ExportToPDF.Text text x y (Some width) => [(text, x, y, width)]
                      | _ => []
                      end) ops.

Definition isAddPage (op : ExportToPDF.docOp) : bool :=
  match op with
  | ExportToPDF.AddPage => true
  | _ => false
  end.

(** The height of the k-th line, counted from 1: pages have 26 slots
    from 20 to 270, and the first line takes the second slot. *)
Definition lineY (k : nat) : Z := (20 + 10 * Z.of_nat (k mod 26))%Z.

(** A stock on which the comparisons with 10 and 50 behave as on a
    number: above is the contrary of at most, and at most 10 is at most
    50. *)
Definition comparesAsANumber (stock : number) : Prop :=
  num_ltb (num_of_Z 10) stock = negb (num_leb stock (num_of_Z 10))
  /\ num_ltb (num_of_Z 50) stock = negb (num_leb stock (num_of_Z 50))
  /\ (num_leb stock (num_of_Z 10) = true -> num_leb stock (num_of_Z 50) = true).

(** The comparator puts no element of the list after one that follows
    it, at whatever distance: its answer on an element and a later one is
    never positive. *)
Fixpoint inOrder (A : Type) (cmp : A -> A -> number) (l : list A) : Prop :=
  match l with
  | [] => True
  | a :: rest =>
      (forall b, In b rest -> num_ltb (num_of_Z 0) (cmp a b) = false)
      /\ inOrder cmp rest
  end.

(** The comparator is consistent on the elements of [l]: it never puts
    each of two of them after the other, and when it puts neither [a]
    after [b] nor [b] after [c] it does not put [a] after [c].  An
    element it cannot compare, such as a product whose date or price is
    not a number, breaks the second part. *)
Definition consistentOn (A : Type) (cmp : A -> A -> number) (l : list A) : Prop :=
  (forall a b, In a l -> In b l ->
               num_ltb (num_of_Z 0) (cmp a b) = true ->
               num_ltb (num_of_Z 0) (cmp b a) = false)
  /\ (forall a b c, In a l -> In b l -> In c l ->
                    num_ltb (num_of_Z 0) (cmp a b) = false ->
                    num_ltb (num_of_Z 0) (cmp b c) = false ->
                    num_ltb (num_of_Z 0) (cmp a c) = false).

(** The rows, numbered from [i], whose number passes [test]. *)
Fixpoint rowsWhere (A : Type) (test : nat -> bool) (i : nat) (rows : list A) : list A :=
  match rows with
  | [] => []
  | row :: rest =>
      if test i then row :: rowsWhere test (S i) rest else rowsWhere test (S i) rest
  end.

(** The toast of the upload for a row whose POST was rejected. *)
Definition uploadFailure (p : Product.t) : event :=
  ToastError ("Failed to upload " +++ Str.quoted (Product.name p)) None.

(** The products a chart accounts for. *)
Definition total (chart : list (string * nat)) : nat := list_sum (map snd chart).

End FurtherVocabulary.

(** * Scenarios

    Concrete inputs, run with the reference built-ins. *)

(** The products of the scenarios: a Widget with 5 units in stock and a
    Gadget with 50. *)
Definition widget : @Product.t Reference.builtins :=
  Product.mk (B := Reference.builtins) "1" "Widget" "Electronics"
             (Reference.Int 25) (Reference.Int 5) "A widget" None None.

Definition gadget : @Product.t Reference.builtins :=
  Product.mk (B := Reference.builtins) "2" "Gadget" "Electronics"
             (Reference.Int 40) (Reference.Int 50) "A gadget" None None.

Definition widgetLow : @Product.t Reference.builtins :=
  Product.mk (B := Reference.builtins) "1" "Widget" "Electronics"
             (Reference.Int 25) (Reference.Int 3) "A widget" None None.

Definition lowerWidget : @NewProduct.t Reference.builtins :=
  NewProduct.mk (B := Reference.builtins) "widget" "Books"
                (Reference.Int 5) (Reference.Int 3) EmptyString None None.

Definition gadgetAsWidget : @Product.t Reference.builtins :=
  Product.mk (B := Reference.builtins) "2" "WIDGET" "Electronics"
             (Reference.Int 40) (Reference.Int 50) "A gadget" None None.

(** A product list holding the Widget and the Gadget, its form open. *)
Definition catalogue : @ProductList.State Reference.builtins :=
  ProductList.mkState [widget; gadget] None true.

Definition gizmoForm : @NewProduct.t Reference.builtins :=
  NewProduct.mk (B := Reference.builtins) "Gizmo" "Books"
                (Reference.Int 12) (Reference.Int 30) EmptyString None None.

Definition gizmo : @Product.t Reference.builtins :=
  Product.mk (B := Reference.builtins) "3" "Gizmo" "Books"
             (Reference.Int 12) (Reference.Int 30) EmptyString None None.

Definition gadgetPro : @Product.t Reference.builtins :=
  Product.mk (B := Reference.builtins) "2" "Gadget Pro" "Electronics"
             (Reference.Int 45) (Reference.Int 50) "A gadget" None None.

(** A CSV file of one data line whose name is "widget". *)
Definition widgetCsv : string :=
  "ID,Name,Category,Price,Stock,Description,URL,UpdatedAt"
    +++ String Str.newline "7,widget,Books,5,3".

Definition noon (_ : nat) : string := "2025-03-01T12:00:00.000Z".

Definition widgetRow : @Product.t Reference.builtins :=
  Product.mk (B := Reference.builtins) "7" "widget" "Books"
             (Reference.Int 5) (Reference.Int 3) EmptyString None
             (Some "2025-03-01T12:00:00.000Z").

(** The account list of the login scenario. *)
Definition admin : Account.t := Account.mk "admin" "secret" "admin".

Definition accounts : list Account.t := [admin].

Definition anonymous : AuthContext.State := AuthContext.mkState None None.

Definition adminSession : User.t := User.mk "admin" "admin".

Definition signedIn : AuthContext.State :=
  AuthContext.mkState (Some adminSession) (Some (Reference.stringify adminSession)).

(** Two products of the dashboard, the Gadget updated after the Widget. *)
Definition widgetJanuary : @Product.t Reference.builtins :=
  Product.mk (B := Reference.builtins) "1" "Widget" "Electronics"
             (Reference.Int 25) (Reference.Int 5) "A widget" None
             (Some "2025-01-01T00:00:00.000Z").

Definition gadgetJune : @Product.t Reference.builtins :=
  Product.mk (B := Reference.builtins) "2" "Gadget" "Electronics"
             (Reference.Int 40) (Reference.Int 50) "A gadget" None
             (Some "2025-06-01T00:00:00.000Z").

(** A CSV file of three data lines; the second has an empty price. *)
Definition threeLines : string :=
  Str.join (String Str.newline EmptyString)
    ["ID,Name,Category,Price,Stock,Description,URL,UpdatedAt";
     "11,Pen,Books,3,20";
     "12,Cap,Clothing,,7";
     "13,Mug,Books,8,15"].

Definition pen : @Product.t Reference.builtins :=
  Product.mk (B := Reference.builtins) "11" "Pen" "Books"
             (Reference.Int 3) (Reference.Int 20) EmptyString None
             (Some "2025-03-01T12:00:00.000Z").

Definition mug : @Product.t Reference.builtins :=
  Product.mk (B := Reference.builtins) "13" "Mug" "Books"
             (Reference.Int 8) (Reference.Int 15) EmptyString None
             (Some "2025-03-01T12:00:00.000Z").

(** The (name, category, price, stock) of a product. *)
Definition tuple (p : @Product.t Reference.builtins)
  : string * string * Reference.num * Reference.num :=
  (Product.name p, Product.category p, Product.price p, Product.stock p).

(** A product whose name holds a double quote. *)
Definition monitorName : string := "15" +++ String Str.dquote " Monitor".

Definition monitor : @Product.t Reference.builtins :=
  Product.mk (B := Reference.builtins) "9" monitorName "Electronics"
             (Reference.Int 120) (Reference.Int 4) "Full HD" None None.

(** A second pen, named in lower case. *)
Definition penAgain : @Product.t Reference.builtins :=
  Product.mk (B := Reference.builtins) "12" "pen" "Books"
             (Reference.Int 2) (Reference.Int 40) EmptyString None
             (Some "2025-03-01T12:00:00.000Z").

(** A CSV file of two data lines whose names differ in letter case only. *)
Definition twoPens : string :=
  Str.join (String Str.newline EmptyString)
    ["ID,Name,Category,Price,Stock,Description,URL,UpdatedAt";
     "11,Pen,Books,3,20";
     "12,pen,Books,2,40"].

(** The catalogue after the Pen was added to it. *)
Definition withPen : @ProductList.State Reference.builtins :=
  ProductList.mkState [widget; gadget; pen] None false.

(** A clock that moves on after the first product. *)
Definition ticking (i : nat) : string :=
  if (i =? 0)%nat then "2025-03-01T12:00:00.000Z" else "2025-03-01T12:00:00.001Z".

(** The backend answers each creation with the record of the row. *)
Definition penAnswers (i : nat) : option (@Product.t Reference.builtins) :=
  nth_error [pen; penAgain] i.

(** The arrays of a render: the product array of the state at 0. *)
Definition shelves : Heap.heap (@Product.t Reference.builtins) := [[widget; gadget]].

(** The values of the line of the Pen. *)
Definition penValues : list string := ["11"; "Pen"; "Books"; "3"; "20"].

(** * Properties *)


(** ** Duplicate names in the product list *)
Section Duplicates.
Context {B : Builtins}.

Import ProductList.

Lemma sameName_true (a b : string) :
  sameName a b = true <-> Str.toLowerCase a = Str.toLowerCase b.
Proof. unfold sameName. apply String.eqb_eq. Qed.

Lemma addProduct_collision_iff (product : NewProduct.t) (l : list Product.t) :
  existsb (fun p => sameName (Product.name p) (NewProduct.name product)) l = true
  <-> exists p, In p l /\ nameKey p = Str.toLowerCase (NewProduct.name product).
Proof.
  rewrite existsb_exists. split; intros [p [Hin H]]; exists p; split; auto;
    now apply sameName_true.
Qed.

Lemma updateProduct_collision_iff (updated : Product.t) (l : list Product.t) :
  existsb (fun p => sameName (Product.name p) (Product.name updated)
                    && negb (Product.id p =? Product.id updated)) l = true
  <-> exists p, In p l /\ nameKey p = nameKey updated
                /\ Product.id p <> Product.id updated.
Proof.
  rewrite existsb_exists. split.
  - intros [p [Hin H]]. apply andb_true_iff in H. destruct H as [Hn Hi].
    exists p. repeat split; auto.
    + now apply sameName_true.
    + apply negb_true_iff in Hi. now apply String.eqb_neq.
  - intros [p [Hin [Hn Hi]]]. exists p. split; auto.
    apply andb_true_iff. split.
    + now apply sameName_true.
    + apply negb_true_iff. now apply String.eqb_neq.
Qed.

(** Called from the current render, as the form and the edit dialog
    do: a candidate whose name matches an entry up to letter case makes
    addProduct end with the duplicate-entry error, and an update whose new
    name matches an entry with another id makes updateProduct end with it;
    in both cases the state (the collection included) is the one the
    handler started from and nothing else happens. *)
Theorem duplicate_rejected_state_unchanged (st : State) :
  (forall (response : option Product.t) (product : NewProduct.t),
      (exists p, In p (products st)
                 /\ Str.toLowerCase (Product.name p)
                    = Str.toLowerCase (NewProduct.name product)) ->
      addProduct response product st = (st, [duplicateEntry (NewProduct.name product)]))
  /\
  (forall (response : option Product.t) (updatedProduct : Product.t),
      (exists p, In p (products st)
                 /\ Str.toLowerCase (Product.name p)
                    = Str.toLowerCase (Product.name updatedProduct)
                 /\ Product.id p <> Product.id updatedProduct) ->
      updateProduct response updatedProduct st
      = (st, [duplicateEntry (Product.name updatedProduct)])).
Proof.
  split.
  - intros response product H. unfold addProduct.
    apply addProduct_collision_iff in H. now rewrite H.
  - intros response updated H. unfold updateProduct.
    apply updateProduct_collision_iff in H. now rewrite H.
Qed.

End Duplicates.

(** add of "widget" against "Widget", and renaming the Gadget to
    "WIDGET": both are refused and the catalogue stays as it was. *)
Lemma duplicate_rejected_witness :
  ProductList.addProduct (Some gadget) lowerWidget catalogue
  = (catalogue, [ProductList.duplicateEntry "widget"])
  /\ ProductList.updateProduct (Some gadgetAsWidget) gadgetAsWidget catalogue
     = (catalogue, [ProductList.duplicateEntry "WIDGET"]).
Proof.
  destruct (duplicate_rejected_state_unchanged catalogue) as [Hadd Hupd].
  split.
  - apply (Hadd (Some gadget) lowerWidget).
    exists widget. split; [simpl; auto | reflexivity].
  - apply (Hupd (Some gadgetAsWidget) gadgetAsWidget).
    exists widget. split; [simpl; auto | split; [reflexivity | discriminate]].
Defined.

(** C2 fails in the bulk upload.  The file holds a row Pen and a row pen
    and every POST resolves.  The loop hands both rows to the addProduct
    of the render in which the file was chosen, which compares the names
    with the array of that render, the Widget and the Gadget.  When the
    row pen arrives the collection holds the Pen, yet no duplicate is
    reported: the pen is posted, and the collection, set from the old
    array, holds the pen and has lost the Pen.  The same call made from
    the current render, as the form makes it, is refused and leaves the
    collection as it is. *)
Theorem bulk_upload_adds_a_duplicate :
  let rows := AddProductForm.newProducts noon twoPens in
  let afterPen :=
    fst (FormInList.onAddCalls catalogue (fun _ => true) penAnswers 0
                               (firstn 1 rows) catalogue) in
  let result := FormInList.bulkUpload twoPens noon (fun _ => true) penAnswers catalogue in
  rows = [pen; penAgain]
  /\ ProductList.products afterPen = [widget; gadget; pen]
  /\ Str.toLowerCase (Product.name pen)
     = Str.toLowerCase (NewProduct.name (AddProductForm.candidateOf penAgain))
  /\ snd result
     = [HttpPost ProductList.endpoint (AddProductForm.candidateOf pen);
        ToastSuccess ("Product " +++ Str.quoted "Pen" +++ " added successfully!");
        HttpPost ProductList.endpoint (AddProductForm.candidateOf penAgain);
        ToastSuccess ("Product " +++ Str.quoted "pen" +++ " added successfully!")]
  /\ ProductList.products (fst result) = [widget; gadget; penAgain]
  /\ ProductList.addProduct (penAnswers 1) (AddProductForm.candidateOf penAgain) afterPen
     = (afterPen, [ProductList.duplicateEntry "pen"]).
Proof. repeat split; reflexivity. Qed.

(** ** Uniqueness of names across the operations *)
Section Uniqueness.
Context {B : Builtins}.

Import ProductList.




(** The form itself calls no endpoint when it is submitted: it validates,
    hands the candidate to onAdd and resets. *)
Lemma handleSubmit_no_network (now : string) (form : AddProductForm.State) :
  forallb (fun e => negb (isNetworkCall e)) (snd (AddProductForm.handleSubmit now form))
  = true.
Proof.
  unfold AddProductForm.handleSubmit.
  destruct (_ || _); reflexivity.
Qed.


End Uniqueness.





Section ToasterFacts.
Context {B : Builtins}.

Import Toaster.

Lemma overwrite_key (key message : string) (x : entry) :
  fst (overwrite key message x) = fst x.
Proof.
  unfold overwrite. destruct x as [[k|] m]; simpl; auto.
  destruct (k =? key); reflexivity.
Qed.

Lemma hasKey_map_overwrite (key key' message : string) (t : list entry) :
  hasKey key (map (overwrite key' message) t) = hasKey key t.
Proof.
  unfold hasKey. induction t as [|x t IH]; simpl; auto.
  rewrite overwrite_key, IH. reflexivity.
Qed.

Lemma hasKey_app (key : string) (t u : list entry) :
  hasKey key (t ++ u) = hasKey key t || hasKey key u.
Proof. unfold hasKey. apply existsb_app. Qed.

Lemma hasKey_upsert (key key' message : string) (t : list entry) :
  hasKey key (upsert key' message t) = hasKey key t || (key' =? key).
Proof.
  unfold upsert. destruct (hasKey key' t) eqn:H.
  - rewrite hasKey_map_overwrite.
    destruct (String.eqb_spec key' key) as [->|]; [rewrite H|]; simpl;
      now rewrite ?orb_true_r, ?orb_false_r.
  - rewrite hasKey_app. simpl. now rewrite orb_false_r.
Qed.

Lemma present_notify (e e' : event) (t : list entry) :
  present e t = true -> present e (notify t e') = true.
Proof.
  destruct e as [| | | | |m [k|]| | | | |]; simpl; auto.
  destruct e' as [| | | | |m' [k'|]| | | | |]; simpl; auto;
    rewrite ?hasKey_upsert, ?hasKey_app; intros ->; reflexivity.
Qed.

Lemma present_after_notify (e : event) (t : list entry) :
  keyed e = true -> present e (notify t e) = true.
Proof.
  destruct e as [| | | | |m [k|]| | | | |]; simpl; auto.
  intros _. rewrite hasKey_upsert, String.eqb_refl. apply orb_true_r.
Qed.

Lemma notify_present (e : event) (t : list entry) :
  keyed e = true -> present e t = true -> notify t e = map (touch e) t.
Proof.
  destruct e as [| | | | |m [k|]| | | | |]; simpl; intros Hk Hp;
    try discriminate; try (symmetry; apply map_id).
  unfold upsert. now rewrite Hp.
Qed.

Lemma touch_key (e : event) (x : entry) : fst (touch e x) = fst x.
Proof.
  destruct e as [| | | | |m [k|]| | | | |]; simpl; auto. apply overwrite_key.
Qed.

(** Once every key of [events] is shown, dispatching them rewrites the
    entries in place. *)
Lemma notifyAll_present (events : list event) (t : list entry) :
  forallb keyed events = true ->
  forallb (fun e => present e t) events = true ->
  notifyAll events t = map (fun x => fold_left (fun y e => touch e y) events x) t.
Proof.
  unfold notifyAll. revert t.
  induction events as [|e events IH]; simpl; intros t Hk Hp.
  - symmetry. apply map_id.
  - apply andb_true_iff in Hk. destruct Hk as [Hke Hk].
    apply andb_true_iff in Hp. destruct Hp as [Hpe Hp].
    rewrite IH; auto.
    + rewrite (notify_present _ _ Hke Hpe), map_map. reflexivity.
    + apply forallb_forall. intros e' He'. apply present_notify.
      rewrite forallb_forall in Hp. now apply Hp.
Qed.

Lemma notifyAll_snoc (events : list event) (e : event) (t : list entry) :
  notifyAll (events ++ [e]) t = notify (notifyAll events t) e.
Proof. unfold notifyAll. now rewrite fold_left_app. Qed.

Lemma touch_all_snoc (events : list event) (e : event) (x : entry) :
  fold_left (fun y e => touch e y) (events ++ [e]) x
  = touch e (fold_left (fun y e => touch e y) events x).
Proof. now rewrite fold_left_app. Qed.

Lemma touch_all_key (events : list event) (x : entry) :
  fst (fold_left (fun y e => touch e y) events x) = fst x.
Proof.
  revert x. induction events as [|e events IH]; simpl; intros x; auto.
  now rewrite IH, touch_key.
Qed.

Lemma present_all_after (events : list event) (t : list entry) :
  forallb keyed events = true ->
  forallb (fun e => present e (notifyAll events t)) events = true.
Proof.
  induction events as [|e events IH] using rev_ind; intros Hk; auto.
  rewrite forallb_app in Hk. apply andb_true_iff in Hk. destruct Hk as [Hk He].
  simpl in He. rewrite andb_true_r in He.
  rewrite forallb_app, notifyAll_snoc. apply andb_true_iff. split.
  - apply forallb_forall. intros e' He'. apply present_notify.
    specialize (IH Hk). rewrite forallb_forall in IH. now apply IH.
  - simpl. now rewrite present_after_notify.
Qed.

Lemma overwrite_hit (key message : string) (x : entry) :
  fst x = Some key -> overwrite key message x = (Some key, message).
Proof.
  destruct x as [k m]. simpl. intros ->. unfold overwrite. simpl.
  now rewrite String.eqb_refl.
Qed.

Lemma overwrite_miss (key message : string) (x : entry) :
  fst x <> Some key -> overwrite key message x = x.
Proof.
  destruct x as [[k|] m]; unfold overwrite; simpl; auto.
  intros H. destruct (String.eqb_spec k key) as [->|]; congruence.
Qed.

Lemma hasKey_false (key : string) (t : list entry) (x : entry) :
  hasKey key t = false -> In x t -> fst x <> Some key.
Proof.
  unfold hasKey. intros H Hin Hx.
  assert (Ht : existsb (fun e => match fst e with
                                 | Some k => k =? key
                                 | None => false
                                 end) t = true).
  { apply existsb_exists. exists x. split; auto. rewrite Hx. apply String.eqb_refl. }
  congruence.
Qed.

(** Every entry shown after [events] already carries what [events] write. *)
Lemma shown_is_settled (events : list event) (t : list entry) :
  forallb keyed events = true ->
  forall x, In x (notifyAll events t) ->
            fold_left (fun y e => touch e y) events x = x.
Proof.
  induction events as [|e events IH] using rev_ind; intros Hk x Hx; auto.
  rewrite forallb_app in Hk. apply andb_true_iff in Hk. destruct Hk as [Hk He].
  simpl in He. rewrite andb_true_r in He.
  rewrite notifyAll_snoc in Hx. rewrite touch_all_snoc.
  destruct e as [| | | | |m [k|]| | | | |]; simpl in *; try discriminate;
    try (now apply IH).
  assert (Hhit : forall z, fst z = Some k ->
                           overwrite k m (fold_left (fun y e => touch e y) events z)
                           = (Some k, m)).
  { intros z Hz. apply overwrite_hit. now rewrite touch_all_key. }
  unfold upsert in Hx. destruct (hasKey k (notifyAll events t)) eqn:Hhas.
  - apply in_map_iff in Hx. destruct Hx as [y [Hy Hin]]. subst x.
    destruct (fst y) as [k'|] eqn:Hky.
    + destruct (String.eqb_spec k' k) as [->|Hne].
      * rewrite (@overwrite_hit k m y Hky). now apply Hhit.
      * assert (Hmiss : fst y <> Some k) by (rewrite Hky; congruence).
        rewrite (@overwrite_miss k m y Hmiss), (IH Hk y Hin).
        now apply overwrite_miss.
    + assert (Hmiss : fst y <> Some k) by (rewrite Hky; congruence).
      rewrite (@overwrite_miss k m y Hmiss), (IH Hk y Hin).
      now apply overwrite_miss.
  - apply in_app_or in Hx. destruct Hx as [Hin|[<-|[]]].
    + rewrite (IH Hk x Hin). apply overwrite_miss.
      now apply (@hasKey_false k (notifyAll events t) x Hhas).
    + now apply Hhit.
Qed.

Lemma keysOf_app (t u : list entry) : keysOf (t ++ u) = keysOf t ++ keysOf u.
Proof. unfold keysOf. apply flat_map_app. Qed.

Lemma keysOf_map_overwrite (key message : string) (t : list entry) :
  keysOf (map (overwrite key message) t) = keysOf t.
Proof.
  unfold keysOf. induction t as [|x t IH]; simpl; auto.
  now rewrite overwrite_key, IH.
Qed.

Lemma hasKey_keysOf (key : string) (t : list entry) :
  hasKey key t = false -> ~ In key (keysOf t).
Proof.
  unfold keysOf. intros H Hin. apply in_flat_map in Hin.
  destruct Hin as [x [Hx Hk]]. pose proof (hasKey_false _ _ H Hx) as Hne.
  destruct (fst x) as [k|]; simpl in Hk; [|contradiction].
  destruct Hk as [->|[]]. now apply Hne.
Qed.

(** No notification makes two shown entries carry the same key. *)
Lemma notifyAll_keys_distinct (events : list event) (t : list entry) :
  NoDup (keysOf t) -> NoDup (keysOf (notifyAll events t)).
Proof.
  unfold notifyAll. revert t.
  induction events as [|e events IH]; simpl; intros t H; auto.
  apply IH.
  destruct e as [| | | | |m [k|]| | | | |]; simpl; auto;
    try (rewrite keysOf_app; simpl; now rewrite app_nil_r).
  unfold upsert. destruct (hasKey k t) eqn:Hk.
  - now rewrite keysOf_map_overwrite.
  - rewrite keysOf_app. simpl. apply NoDup_app; auto.
    + constructor; [intros []|constructor].
    + intros a Ha [<-|[]]. now apply (hasKey_keysOf _ _ Hk).
Qed.

(** Dispatching a batch of keyed notifications a second time changes
    nothing: no entry is added and every entry keeps its text. *)
Lemma notifyAll_twice (events : list event) (t : list entry) :
  forallb keyed events = true ->
  notifyAll events (notifyAll events t) = notifyAll events t.
Proof.
  intros Hk.
  rewrite (@notifyAll_present events (notifyAll events t) Hk (@present_all_after events t Hk)).
  rewrite <- (map_id (notifyAll events t)) at 2.
  apply map_ext_in. intros x Hx. now apply (@shown_is_settled events t).
Qed.

End ToasterFacts.

(** ** Low-stock notifications of a load *)
Section LowStock.
Context {B : Builtins}.

Import ProductList.

Lemma alerts_are_toasts (l : list Product.t) :
  List.filter isToast
    (flat_map (fun product => if lowStock product then [lowStockAlert product] else []) l)
  = map lowStockAlert (List.filter lowStock l).
Proof.
  induction l as [|p l IH]; simpl; auto.
  destruct (lowStock p); simpl; now rewrite ?filter_app, IH.
Qed.

Lemma alerts_are_keyed (l : list Product.t) :
  forallb Toaster.keyed
    (flat_map (fun product => if lowStock product then [lowStockAlert product] else []) l)
  = true.
Proof.
  induction l as [|p l IH]; simpl; auto.
  destruct (lowStock p); simpl; auto.
Qed.

Lemma fetchProducts_loaded (fetched : list Product.t) (st : State) :
  let result := fetchProducts (Some fetched) st in
  products (fst result) = fetched
  /\ List.filter isToast (snd result)
     = map lowStockAlert
           (List.filter (fun p => num_ltb (Product.stock p) (num_of_Z 10)) fetched)
  /\ (forall t, Toaster.notifyAll (snd result) (Toaster.notifyAll (snd result) t)
                = Toaster.notifyAll (snd result) t)
  /\ (forall t, NoDup (Toaster.keysOf t) ->
                NoDup (Toaster.keysOf (Toaster.notifyAll (snd result) t))).
Proof.
  simpl. split; [reflexivity|]. split; [|split].
  - apply alerts_are_toasts.
  - intros t. apply notifyAll_twice. simpl. apply alerts_are_keyed.
  - intros t. apply notifyAll_keys_distinct.
Qed.

End LowStock.

(** C6: a load replaces the collection by the fetched one and its
    notifications are, in order, one low-stock alert for each fetched item
    whose stock is below 10 and none for the others; each alert carries
    the key low-stock-ID of its item, so that dispatching the alerts of a
    load again leaves the shown notifications as they are and no two shown
    notifications ever carry the same key.  Loading a
    Widget with 5 units and a Gadget with 50 raises the Widget alert
    alone. *)
Theorem load_alerts_low_stock_once :
  (forall (B : Builtins) (fetched : list Product.t) (st : ProductList.State),
      let result := ProductList.fetchProducts (Some fetched) st in
      ProductList.products (fst result) = fetched
      /\ List.filter isToast (snd result)
         = map ProductList.lowStockAlert
               (List.filter (fun p => num_ltb (Product.stock p) (num_of_Z 10)) fetched)
      /\ (forall p,
             ProductList.lowStockAlert p
             = ToastError ("Low stock alert: " +++ Product.name p +++ " has only "
                             +++ num_to_string (Product.stock p) +++ " units left!")
                          (Some ("low-stock-" +++ Product.id p)))
      /\ (forall t, Toaster.notifyAll (snd result) (Toaster.notifyAll (snd result) t)
                    = Toaster.notifyAll (snd result) t)
      /\ (forall t, NoDup (Toaster.keysOf t) ->
                    NoDup (Toaster.keysOf (Toaster.notifyAll (snd result) t))))
  /\ List.filter isToast
       (snd (ProductList.fetchProducts (Some [widget; gadget])
                                       (ProductList.mkState [] None false)))
     = [ToastError "Low stock alert: Widget has only 5 units left!" (Some "low-stock-1")].
Proof.
  split.
  - intros B fetched st.
    destruct (fetchProducts_loaded fetched st) as [Hp [Ht [Hn Hd]]].
    repeat split; auto.
  - reflexivity.
Qed.

(** Two loads of the Widget in a row, the second with its stock down to
    3, show one Widget alert, with the text of the second load. *)
Lemma load_alerts_witness :
  NoDup (Toaster.keysOf [])
  /\ NoDup (Toaster.keysOf
              (Toaster.notifyAll
                 (snd (ProductList.fetchProducts (Some [widgetLow; gadget]) catalogue))
                 (Toaster.notifyAll
                    (snd (ProductList.fetchProducts (Some [widget; gadget]) catalogue))
                    [])))
  /\ Toaster.notifyAll
       (snd (ProductList.fetchProducts (Some [widgetLow; gadget]) catalogue))
       (Toaster.notifyAll
          (snd (ProductList.fetchProducts (Some [widget; gadget]) catalogue)) [])
     = [(Some "low-stock-1", "Low stock alert: Widget has only 3 units left!")].
Proof.
  assert (H0 : NoDup (Toaster.keysOf [])) by constructor.
  split; [exact H0|]. split; [|reflexivity].
  pose proof (proj1 load_alerts_low_stock_once Reference.builtins) as H.
  apply (proj2 (proj2 (proj2 (proj2 (H [widgetLow; gadget] catalogue))))).
  apply (proj2 (proj2 (proj2 (proj2 (H [widget; gadget] catalogue))))).
  exact H0.
Defined.

(** ** The session store *)
Section Session.
Context {B : Builtins}.

Import AuthContext.

Lemma credentials_check (username password : string) (a : Account.t) :
  (Account.username a =? username) && (Account.password a =? password) = true
  <-> matches username password a.
Proof.
  unfold matches. rewrite andb_true_iff, !String.eqb_eq. tauto.
Qed.

Lemma find_credentials_none (users : list Account.t) (username password : string) :
  find (fun u => (Account.username u =? username) && (Account.password u =? password)) users
  = None
  <-> ~ exists a, In a users /\ matches username password a.
Proof.
  split.
  - intros H [a [Hin Hm]]. apply (find_none _ _ H) in Hin.
    apply credentials_check in Hm. congruence.
  - intros H. destruct (find _ users) as [a|] eqn:E; auto.
    exfalso. apply H. apply find_some in E. destruct E as [Hin Hm].
    exists a. split; auto. now apply credentials_check.
Qed.

(** C7: against the fetched account list, login returns normally exactly
    when some account has this username and this password, compared as
    strings; the session is then the username and role of the first such
    account, and the storage entry is its serialization; when no account
    matches, login throws Invalid credentials and the state is the one it
    started from. *)
Theorem login_iff_credentials_match (users : list Account.t) (username password : string)
  (st : State) :
  ((exists a, In a users /\ matches username password a)
   <-> snd (login (Some users) username password st) = Returned tt)
  /\ (forall a,
         find (fun u => (Account.username u =? username)
                        && (Account.password u =? password)) users = Some a ->
         matches username password a
         /\ login (Some users) username password st
            = (mkState (Some (User.mk (Account.username a) (Account.role a)))
                       (Some (JSON_stringify (User.mk (Account.username a) (Account.role a)))),
               Returned tt))
  /\ ((~ exists a, In a users /\ matches username password a) ->
      login (Some users) username password st = (st, Thrown "Invalid credentials")).
Proof.
  split; [|split].
  - unfold login. split.
    + intros Hex. destruct (find _ users) as [a|] eqn:E; auto.
      apply find_credentials_none in E. contradiction.
    + intros Hret. destruct (find _ users) as [a|] eqn:E; [|discriminate].
      apply find_some in E. destruct E as [Hin Hm].
      exists a. split; auto. now apply credentials_check.
  - intros a E. split.
    + apply find_some in E. now apply credentials_check.
    + unfold login. now rewrite E.
  - intros Hno. unfold login.
    apply find_credentials_none in Hno. now rewrite Hno.
Qed.

(** C8, as the code has it: an absent or empty entry restores the
    anonymous session; any other entry goes through JSON.parse, whose
    value becomes the session and whose syntax error is not caught. *)
Theorem restoration_parses_the_entry :
  mount None = Returned (mkState None None)
  /\ mount (Some EmptyString) = Returned (mkState None None)
  /\ (forall s, s <> EmptyString ->
                mount (Some s)
                = match JSON_parse s with
                  | Some u => Returned (mkState u (syncStorage u))
                  | None => Thrown "SyntaxError"
                  end).
Proof.
  split; [reflexivity|]. split; [reflexivity|].
  intros s Hs. unfold mount, restore. simpl.
  destruct (String.eqb_spec s EmptyString) as [E|E]; [contradiction|]. simpl.
  destruct (JSON_parse s); reflexivity.
Qed.

(** *** The storage entry follows the session *)

Lemma login_inSync response username password (st : State) :
  inSync st -> inSync (fst (login response username password st)).
Proof.
  unfold login. intros H. destruct response as [users|]; auto.
  destruct (find _ users); auto. reflexivity.
Qed.

Lemma logout_inSync (st : State) : inSync st -> inSync (logout st).
Proof.
  unfold logout. intros H. destruct (user st); auto. reflexivity.
Qed.

Lemma mount_inSync (savedUser : option string) (st : State) :
  mount savedUser = Returned st -> inSync st.
Proof.
  unfold mount. destruct (restore savedUser); [|discriminate].
  intros [= <-]. reflexivity.
Qed.

(** C10: in every state the provider reaches by restoration, login and
    logout, the session has the two fields username and role and the
    storage entry is the serialization of that session, absent when there
    is none; a successful login sets both from the username and role of
    the matched account, so that two accounts that differ in their
    password only leave the same state. *)
Theorem session_holds_no_password (st : State) :
  reachable st ->
  storage st = match user st with
               | Some u => Some (JSON_stringify (User.mk (User.username u) (User.role u)))
               | None => None
               end
  /\ (forall users username password a users' username' password' a' st0 st0',
         find (fun u => (Account.username u =? username)
                        && (Account.password u =? password)) users = Some a ->
         find (fun u => (Account.username u =? username')
                        && (Account.password u =? password')) users' = Some a' ->
         Account.username a = Account.username a' ->
         Account.role a = Account.role a' ->
         fst (login (Some users) username password st0)
         = mkState (Some (User.mk (Account.username a) (Account.role a)))
                   (Some (JSON_stringify (User.mk (Account.username a) (Account.role a))))
         /\ fst (login (Some users) username password st0)
            = fst (login (Some users') username' password' st0')).
Proof.
  intros Hr. split.
  - assert (Hs : inSync st).
    { induction Hr as [saved st Hm|st st' Hr IH Hstep].
      - now apply (mount_inSync saved).
      - destruct Hstep; [now apply login_inSync | now apply logout_inSync]. }
    unfold inSync in Hs. rewrite Hs. destruct (user st) as [[u r]|]; reflexivity.
  - intros users username password a users' username' password' a' st0 st0' E E' Hu Hro.
    unfold login. rewrite E, E'. simpl. rewrite Hu, Hro. auto.
Qed.

End Session.

(** login("admin", "wrong") throws and leaves the anonymous session;
    login("admin", "secret") signs the administrator in. *)
Lemma login_witness :
  AuthContext.login (B := Reference.builtins) (Some accounts) "admin" "wrong" anonymous
  = (anonymous, AuthContext.Thrown "Invalid credentials")
  /\ AuthContext.login (B := Reference.builtins) (Some accounts) "admin" "secret" anonymous
     = (signedIn, AuthContext.Returned tt).
Proof.
  split.
  - apply (proj2 (proj2 (login_iff_credentials_match (B := Reference.builtins) accounts "admin" "wrong" anonymous))).
    intros [a [[<-|[]] [_ Hp]]]. discriminate Hp.
  - apply (proj1 (proj2 (login_iff_credentials_match (B := Reference.builtins) accounts "admin" "secret" anonymous))
             admin).
    reflexivity.
Defined.

(** The entry written for the administrator is read back at startup. *)
Lemma restoration_witness :
  Reference.stringify adminSession <> EmptyString
  /\ AuthContext.mount (B := Reference.builtins) (Some (Reference.stringify adminSession))
     = AuthContext.Returned signedIn.
Proof.
  assert (Hs : Reference.stringify adminSession <> EmptyString) by discriminate.
  split; [exact Hs|].
  rewrite (proj2 (proj2 (restoration_parses_the_entry (B := Reference.builtins)))
             (Reference.stringify adminSession) Hs).
  reflexivity.
Defined.

(** C8 fails as stated: an entry that is not JSON makes the initializer
    of the provider throw instead of giving the anonymous session. *)
Lemma restoration_throws_on_malformed_entry :
  AuthContext.mount (B := Reference.builtins) (Some "not json")
  = AuthContext.Thrown "SyntaxError".
Proof. reflexivity. Qed.

Lemma signedIn_reachable : reachable (B := Reference.builtins) signedIn.
Proof.
  apply (reachable_step (st := anonymous)).
  - now apply (reachable_mount (B := Reference.builtins) None).
  - exact (step_login (B := Reference.builtins) (Some accounts) "admin" "secret" anonymous).
Qed.

(** After the administrator signs in, the entry holds the username and
    the role and nothing of the password. *)
Lemma session_holds_no_password_witness :
  reachable (B := Reference.builtins) signedIn
  /\ AuthContext.storage signedIn = Some (Reference.stringify (User.mk "admin" "admin")).
Proof.
  split; [exact signedIn_reachable|].
  exact (proj1 (session_holds_no_password signedIn_reachable)).
Defined.

(** ** Derived views and the base collection *)
Section Views.
Context {B : Builtins}.

Lemma update_app_r (A : Type) (h k : Heap.heap A) (i : nat) (l : list A) :
  Heap.update (h ++ k) (length h + i) l = h ++ Heap.update k i l.
Proof.
  induction h as [|a h IH]; simpl; auto.
  rewrite IH. destruct (h ++ k); reflexivity.
Qed.

Lemma update_last (A : Type) (h : Heap.heap A) (a l : list A) :
  Heap.update (h ++ [a]) (length h) l = h ++ [l].
Proof.
  replace (length h) with (length h + 0) by lia. now rewrite update_app_r.
Qed.

(** filteredProducts sorts the copy its filters made: every array that
    existed before the view is computed is left as it was. *)
Lemma filteredProducts_allocates_only (search categoryFilter sortBy : string)
  (products : Heap.ref) (h : Heap.heap Product.t) :
  exists fresh,
    snd (runState (ProductList.filteredProducts search categoryFilter sortBy products) h)
    = h ++ fresh.
Proof.
  unfold ProductList.filteredProducts, Heap.filter, Heap.sort, Heap.alloc. simpl.
  rewrite update_last, <- app_assoc. eexists. reflexivity.
Qed.

(** The same holds for lowStockProducts of the dashboard. *)
Lemma lowStockProducts_allocates_only (products : Heap.ref) (h : Heap.heap Product.t) :
  exists fresh,
    snd (runState (AdminDashboard.lowStockProducts products) h) = h ++ fresh.
Proof.
  unfold AdminDashboard.lowStockProducts, Heap.filter, Heap.sort, Heap.slice, Heap.alloc.
  simpl.
  rewrite update_last, <- app_assoc. eexists. reflexivity.
Qed.

Lemma read_app_l (A : Type) (h fresh : Heap.heap A) (r : Heap.ref) :
  r < length h -> Heap.read (h ++ fresh) r = Heap.read h r.
Proof. intros H. unfold Heap.read. now apply app_nth1. Qed.

Lemma read_update (A : Type) (h : Heap.heap A) (r : Heap.ref) (l : list A) :
  r < length h -> Heap.read (Heap.update h r l) r = l.
Proof.
  unfold Heap.read. revert r. induction h as [|a h IH]; simpl; intros r H; [lia|].
  destruct r as [|r]; simpl; auto. apply IH. lia.
Qed.

Lemma length_update (A : Type) (h : Heap.heap A) (r : Heap.ref) (l : list A) :
  length (Heap.update h r l) = length h.
Proof.
  revert r. induction h as [|a h IH]; simpl; intros r; auto.
  destruct r; simpl; auto.
Qed.

(** recentUpdates sorts the array it is given: once the view is
    computed, that array holds its products from the latest update to the
    earliest. *)
Lemma recentUpdates_sorts_in_place (products : Heap.ref) (h : Heap.heap Product.t) :
  products < length h ->
  Heap.read (snd (runState (AdminDashboard.recentUpdates products) h)) products
  = sorted (fun a b => num_sub (AdminDashboard.getTime b) (AdminDashboard.getTime a))
           (Heap.read h products).
Proof.
  intros H. unfold AdminDashboard.recentUpdates, Heap.sort, Heap.slice, Heap.alloc.
  simpl. rewrite read_app_l by (now rewrite length_update).
  now apply read_update.
Qed.

End Views.

(** C9 on the dashboard: computing recentUpdates sorts the array of the
    state itself.  With the products held in the order Widget, Gadget, the
    array at the same address holds Gadget, Widget once the view is
    computed. *)
Theorem recentUpdates_reorders_products :
  let before := [[widgetJanuary; gadgetJune]] in
  let after := snd (runState (AdminDashboard.recentUpdates 0) before) in
  Heap.read before 0 = [widgetJanuary; gadgetJune]
  /\ Heap.read after 0 = [gadgetJune; widgetJanuary].
Proof. split; reflexivity. Qed.

(** ** Splitting and joining *)
Section Strings.

Import Str.

Lemma has_char_String (d c : ascii) (s : string) :
  has_char d (String c s) = Ascii.eqb c d || has_char d s.
Proof. reflexivity. Qed.

Lemma has_char_app (d : ascii) (a b : string) :
  has_char d (a +++ b) = has_char d a || has_char d b.
Proof.
  induction a as [|c a IH]; simpl; auto. now rewrite IH, orb_assoc.
Qed.

Lemma has_char_quoted (d : ascii) (s : string) :
  Ascii.eqb dquote d = false -> has_char d (quoted s) = has_char d s.
Proof.
  intros H. unfold quoted.
  rewrite has_char_String, has_char_app, has_char_String, H.
  simpl. now rewrite orb_false_r.
Qed.

Lemma has_char_doubleQuotes (d : ascii) (s : string) :
  Ascii.eqb dquote d = false -> has_char d (doubleQuotes s) = has_char d s.
Proof.
  intros H. induction s as [|c s IH]; auto.
  cbn [doubleQuotes]. destruct (Ascii.eqb_spec c dquote) as [->|Hc].
  - now rewrite !has_char_String, H, IH.
  - now rewrite !has_char_String, IH.
Qed.

Lemma doubleQuotes_none (s : string) :
  has_char dquote s = false -> doubleQuotes s = s.
Proof.
  induction s as [|c s IH]; auto.
  rewrite has_char_String. intros H.
  apply orb_false_iff in H. destruct H as [Hc Hs].
  cbn [doubleQuotes]. now rewrite Hc, IH.
Qed.

Lemma split_no_separator (d : ascii) (s : string) :
  has_char d s = false -> split d s = [s].
Proof.
  induction s as [|c s IH]; simpl; auto.
  intros H. apply orb_false_iff in H. destruct H as [Hc Hs].
  now rewrite Hc, (IH Hs).
Qed.

Lemma split_at_separator (d : ascii) (a b : string) :
  has_char d a = false -> split d (a +++ String d b) = a :: split d b.
Proof.
  induction a as [|c a IH]; simpl.
  - intros _. now rewrite Ascii.eqb_refl.
  - intros H. apply orb_false_iff in H. destruct H as [Hc Ha].
    now rewrite Hc, (IH Ha).
Qed.

(** Splitting undoes joining when no piece holds the separator. *)
Lemma split_join (d : ascii) (l : list string) :
  l <> [] -> forallb (fun s => negb (has_char d s)) l = true ->
  split d (join (String d EmptyString) l) = l.
Proof.
  induction l as [|x l IH]; [congruence|].
  intros _ H. simpl in H. apply andb_true_iff in H. destruct H as [Hx Hl].
  apply negb_true_iff in Hx.
  destruct l as [|y l].
  - simpl. now apply split_no_separator.
  - change (join (String d EmptyString) (x :: y :: l))
      with (x +++ String d (join (String d EmptyString) (y :: l))).
    rewrite (@split_at_separator d x _ Hx), IH; auto. discriminate.
Qed.

Lemma has_char_join (d : ascii) (sep : string) (l : list string) :
  has_char d sep = false ->
  has_char d (join sep l) = existsb (has_char d) l.
Proof.
  intros Hsep. induction l as [|x l IH]; simpl; auto.
  destruct l as [|y l].
  - now rewrite orb_false_r.
  - rewrite !has_char_app, Hsep, IH. reflexivity.
Qed.

Lemma length_append (a b : string) :
  String.length (a +++ b) = String.length a + String.length b.
Proof. induction a as [|c a IH]; simpl; auto. Qed.

Lemma quoted_is_longer (s : string) : quoted s <> s.
Proof.
  intros H. apply (f_equal String.length) in H. unfold quoted in H.
  cbn [String.length] in H. rewrite length_append in H.
  cbn [String.length] in H. lia.
Qed.

End Strings.

(** ** Bulk upload *)
Section BulkUpload.
Context {B : Builtins}.

Import AddProductForm.

Lemma parseLine_accepted (now line : string) :
  parseLine now line = if accepted line then Some (converted now line) else None.
Proof.
  unfold parseLine, accepted, converted. cbn [forallb].
  destruct (Str.truthy (nth_error (Str.split Str.comma line) 0));
    destruct (Str.truthy (nth_error (Str.split Str.comma line) 1));
    destruct (Str.truthy (nth_error (Str.split Str.comma line) 2));
    destruct (Str.truthy (nth_error (Str.split Str.comma line) 3));
    destruct (Str.truthy (nth_error (Str.split Str.comma line) 4));
    reflexivity.
Qed.

Lemma parseLines_accepted (clock : nat -> string) (i : nat) (lines : list string) :
  parseLines clock i lines
  = map (fun il => converted (clock (fst il)) (snd il))
        (List.filter (fun il => accepted (snd il)) (indexed i lines)).
Proof.
  revert i. induction lines as [|line lines IH]; intros i; simpl; auto.
  rewrite parseLine_accepted. destruct (accepted line); simpl; now rewrite IH.
Qed.

Lemma upload_posts (postOk : nat -> bool) (candidates : list Product.t) (i n : nat) :
  List.filter isNetworkCall (fst (upload postOk i candidates n))
  = map (HttpPostRow api) candidates.
Proof.
  revert i n. induction candidates as [|p l IH]; intros i n; simpl; auto.
  destruct (postOk i).
  - specialize (IH (S i) (S n)). destruct (upload postOk (S i) l (S n)). simpl in *.
    now rewrite IH.
  - specialize (IH (S i) n). destruct (upload postOk (S i) l n). simpl in *.
    now rewrite IH.
Qed.

Lemma upload_count (postOk : nat -> bool) (candidates : list Product.t) (i n : nat) :
  snd (upload postOk i candidates n) = n + successes postOk i (length candidates).
Proof.
  unfold successes. revert i n.
  induction candidates as [|p l IH]; intros i n; simpl; [lia|].
  destruct (postOk i).
  - specialize (IH (S i) (S n)). destruct (upload postOk (S i) l (S n)). simpl in *. lia.
  - specialize (IH (S i) n). destruct (upload postOk (S i) l n). simpl in *. lia.
Qed.

Lemma upload_reports_nothing (postOk : nat -> bool) (candidates : list Product.t) (i n : nat) :
  forallb (fun e => negb (isToastSuccess e)) (fst (upload postOk i candidates n)) = true.
Proof.
  revert i n. induction candidates as [|p l IH]; intros i n; simpl; auto.
  destruct (postOk i).
  - specialize (IH (S i) (S n)). destruct (upload postOk (S i) l (S n)). simpl in *. auto.
  - specialize (IH (S i) n). destruct (upload postOk (S i) l n). simpl in *. auto.
Qed.

Lemma handleBulkUpload_trace (text : string) (clock : nat -> string) (postOk : nat -> bool) :
  let candidates := newProducts clock text in
  let count := successes postOk 0 (length candidates) in
  handleBulkUpload (Some text) clock postOk
  = fst (upload postOk 0 candidates 0)
    ++ (if (0 <? count)%nat then [ToastSuccess (uploadedMessage count)] else []).
Proof.
  simpl. unfold handleBulkUpload.
  pose proof (upload_count postOk (newProducts clock text) 0 0) as Hc.
  destruct (upload postOk 0 (newProducts clock text) 0) as [events n].
  simpl in *. now rewrite Hc.
Qed.

Lemma bulk_upload_facts (text : string) (clock : nat -> string) (postOk : nat -> bool) :
  let candidates := newProducts clock text in
  let count := successes postOk 0 (length candidates) in
  let trace := handleBulkUpload (Some text) clock postOk in
  candidates
  = map (fun il => converted (clock (fst il)) (snd il))
        (List.filter (fun il => accepted (snd il))
                     (indexed 0 (skipn 1 (Str.split Str.newline text))))
  /\ List.filter isNetworkCall trace = map (HttpPostRow api) candidates
  /\ List.filter isToastSuccess trace
     = (if (0 <? count)%nat then [ToastSuccess (uploadedMessage count)] else [])
  /\ (0 < count -> exists events, trace = events ++ [ToastSuccess (uploadedMessage count)]).
Proof.
  cbv zeta. rewrite handleBulkUpload_trace. cbv zeta.
  set (candidates := newProducts clock text).
  set (count := successes postOk 0 (length candidates)).
  split; [|split; [|split]].
  - apply parseLines_accepted.
  - rewrite filter_app, upload_posts.
    destruct (0 <? count)%nat; simpl; now rewrite app_nil_r.
  - rewrite filter_app.
    assert (Hnone : List.filter isToastSuccess (fst (upload postOk 0 candidates 0)) = []).
    { pose proof (upload_reports_nothing postOk candidates 0 0) as H.
      induction (fst (upload postOk 0 candidates 0)) as [|e l IH]; simpl in *; auto.
      apply andb_true_iff in H. destruct H as [He Hl].
      apply negb_true_iff in He. rewrite He. auto. }
    rewrite Hnone. destruct (0 <? count)%nat; reflexivity.
  - intros Hpos. apply Nat.ltb_lt in Hpos. rewrite Hpos. eexists. reflexivity.
Qed.

End BulkUpload.

(** C3, as the code has it: the rows posted are, in order, the
    conversions of exactly the data lines whose first five pieces are
    non-empty, whatever the outcome of each POST; after the loop the count
    of successes is reported in one closing toast when it is positive, and
    no success is reported when it is zero.  Three lines of which one has
    an empty price give two POSTs and the report of 2. *)
Theorem bulk_upload_posts_accepted_lines :
  (forall (B : Builtins) (text : string) (clock : nat -> string) (postOk : nat -> bool),
      let candidates := AddProductForm.newProducts clock text in
      let count := successes postOk 0 (length candidates) in
      let trace := AddProductForm.handleBulkUpload (Some text) clock postOk in
      candidates
      = map (fun il => converted (clock (fst il)) (snd il))
            (List.filter (fun il => accepted (snd il))
                         (indexed 0 (skipn 1 (Str.split Str.newline text))))
      /\ List.filter isNetworkCall trace
         = map (HttpPostRow AddProductForm.api) candidates
      /\ (0 < count ->
          exists events,
            trace = events ++ [ToastSuccess (uploadedMessage count)]
            /\ List.filter isToastSuccess events = [])
      /\ (count = 0 -> List.filter isToastSuccess trace = []))
  /\ AddProductForm.handleBulkUpload (B := Reference.builtins) (Some threeLines) noon
                                     (fun _ => true)
     = [HttpPostRow "/api/products" pen; OnAdd (AddProductForm.candidateOf pen);
        HttpPostRow "/api/products" mug; OnAdd (AddProductForm.candidateOf mug);
        ToastSuccess "2 product(s) uploaded successfully!"].
Proof.
  split; [|reflexivity].
  intros B text clock postOk.
  destruct (bulk_upload_facts text clock postOk) as [Hc [Hp [Hs Hlast]]].
  cbv zeta in *. split; [exact Hc|]. split; [exact Hp|]. split.
  - intros Hpos. destruct (Hlast Hpos) as [events Hev]. exists events. split; auto.
    rewrite Hev, filter_app in Hs. apply Nat.ltb_lt in Hpos. rewrite Hpos in Hs.
    simpl in Hs. destruct (List.filter isToastSuccess events) as [|e l]; auto.
    apply (f_equal (@length _)) in Hs. simpl in Hs. rewrite length_app in Hs.
    simpl in Hs. lia.
  - intros Hzero. rewrite Hs, Hzero. reflexivity.
Qed.

(** When the POST of the Pen succeeds and that of the Mug fails, the
    closing toast reports 1; when both fail, no success is reported. *)
Lemma bulk_upload_witness :
  (exists events,
      AddProductForm.handleBulkUpload (B := Reference.builtins) (Some threeLines) noon
                                      (fun i => (i =? 0)%nat)
      = events ++ [ToastSuccess "1 product(s) uploaded successfully!"]
      /\ List.filter isToastSuccess events = [])
  /\ List.filter isToastSuccess
       (AddProductForm.handleBulkUpload (B := Reference.builtins) (Some threeLines) noon
                                        (fun _ => false)) = [].
Proof.
  split.
  - apply (proj1 (proj2 (proj2
             (proj1 bulk_upload_posts_accepted_lines Reference.builtins threeLines noon
                    (fun i => (i =? 0)%nat))))).
    vm_compute. lia.
  - apply (proj2 (proj2 (proj2
             (proj1 bulk_upload_posts_accepted_lines Reference.builtins threeLines noon
                    (fun _ => false))))).
    reflexivity.
Defined.

(** C3 fails as stated: when no submission succeeds (here the only
    POST is rejected) the handler ends without reporting a count. *)
Lemma bulk_upload_reports_no_count_without_success :
  AddProductForm.handleBulkUpload (B := Reference.builtins) (Some widgetCsv) noon
                                  (fun _ => false)
  = [HttpPostRow "/api/products" widgetRow;
     ConsoleError "Failed to upload product 7:";
     ToastError ("Failed to upload " +++ Str.quoted "widget") None].
Proof. reflexivity. Qed.

(** ** Export, then import *)
Section RoundTrip.
Context {B : Builtins}.

Import AddProductForm.

Lemma plain_parts (s : string) :
  plain s = true ->
  Str.has_char Str.comma s = false /\ Str.has_char Str.newline s = false.
Proof.
  unfold plain. rewrite andb_true_iff, !negb_true_iff. tauto.
Qed.

Lemma rowFields_plain (d : ascii) (p : Product.t) :
  Ascii.eqb Str.dquote d = false ->
  forallb (fun s => negb (Str.has_char d s)) (rowValues p) = true ->
  forallb (fun s => negb (Str.has_char d s)) (rowFields p) = true.
Proof.
  intros Hd. unfold rowValues, rowFields. cbn [forallb].
  rewrite !has_char_quoted, ?has_char_doubleQuotes by exact Hd. auto.
Qed.

Lemma plainProduct_parts (p : Product.t) :
  plainProduct p = true ->
  forallb (fun s => negb (Str.has_char Str.comma s)) (rowValues p) = true
  /\ forallb (fun s => negb (Str.has_char Str.newline s)) (rowValues p) = true.
Proof.
  unfold plainProduct. intros H. rewrite forallb_forall in H.
  split; apply forallb_forall; intros s Hs; apply negb_true_iff;
    now apply plain_parts, H.
Qed.

Lemma split_csvRow (p : Product.t) :
  plainProduct p = true -> Str.split Str.comma (csvRow p) = rowFields p.
Proof.
  intros H. apply plainProduct_parts in H. destruct H as [Hc _].
  change (csvRow p) with (Str.join (String Str.comma EmptyString) (rowFields p)).
  apply split_join; [discriminate|]. now apply rowFields_plain.
Qed.

Lemma csvRow_one_line (p : Product.t) :
  plainProduct p = true -> Str.has_char Str.newline (csvRow p) = false.
Proof.
  intros H. apply plainProduct_parts in H. destruct H as [_ Hn].
  change (csvRow p) with (Str.join (String Str.comma EmptyString) (rowFields p)).
  rewrite has_char_join by reflexivity.
  apply (rowFields_plain Str.newline p eq_refl) in Hn.
  destruct (existsb (Str.has_char Str.newline) (rowFields p)) eqn:E; auto.
  apply existsb_exists in E. destruct E as [s [Hin Hs]].
  rewrite forallb_forall in Hn. specialize (Hn s Hin). now rewrite Hs in Hn.
Qed.

Lemma truthy_quoted (s : string) : Str.truthy (Some (Str.quoted s)) = true.
Proof. reflexivity. Qed.

Lemma orElse_quoted (s d : string) : Str.orElse (Some (Str.quoted s)) d = Str.quoted s.
Proof. reflexivity. Qed.

Lemma orUndefined_quoted (s : string) :
  Str.orUndefined (Some (Str.quoted s)) = Some (Str.quoted s).
Proof. reflexivity. Qed.

Lemma parseLine_csvRow (now : string) (p : Product.t) :
  plainProduct p = true -> parseLine now (csvRow p) = Some (reimported p).
Proof.
  intros H. unfold parseLine. rewrite (split_csvRow p H).
  unfold rowFields. cbn [nth_error].
  rewrite !truthy_quoted, !orElse_quoted, orUndefined_quoted. reflexivity.
Qed.

Lemma parseLines_rows (clock : nat -> string) (i : nat) (l : list Product.t) :
  forallb plainProduct l = true ->
  parseLines clock i (map csvRow l) = map reimported l.
Proof.
  revert i. induction l as [|p l IH]; intros i H; simpl; auto.
  simpl in H. apply andb_true_iff in H. destruct H as [Hp Hl].
  now rewrite (parseLine_csvRow (clock i) p Hp), IH.
Qed.

Lemma dataLines_csvContent (l : list Product.t) :
  forallb plainProduct l = true -> dataLines (csvContent l) = map csvRow l.
Proof.
  intros H. unfold dataLines, csvContent.
  rewrite split_join; [reflexivity|discriminate|].
  simpl. apply forallb_forall. intros s Hs. apply in_map_iff in Hs.
  destruct Hs as [p [<- Hin]]. rewrite forallb_forall in H.
  now rewrite (csvRow_one_line p (H p Hin)).
Qed.

(** C4, as the code has it: for products whose values hold no comma and
    no line feed, importing the exported text gives one row per product,
    in order, whose text fields are the exported values still inside their
    double quotes and whose price and stock are Number of the quoted
    text; the name that comes back is never the name that went out. *)
Theorem import_of_export_keeps_the_quotes (l : list Product.t) (clock : nat -> string) :
  forallb plainProduct l = true ->
  newProducts clock (csvContent l)
  = map (fun p =>
           Product.mk (Str.quoted (Product.id p))
                      (Str.quoted (Product.name p))
                      (Str.quoted (Product.category p))
                      (Number (Str.quoted (num_to_string (Product.price p))))
                      (Number (Str.quoted (num_to_string (Product.stock p))))
                      (Str.quoted (Str.doubleQuotes (Product.description p)))
                      (Some (Str.quoted (Str.orElse (Product.url p) EmptyString)))
                      (Some (Str.quoted (Str.orElse (Product.updatedAt p) EmptyString))))
        l
  /\ forall p, Str.quoted (Product.name p) <> Product.name p.
Proof.
  intros H. split.
  - unfold newProducts. rewrite (dataLines_csvContent l H).
    now apply parseLines_rows.
  - intros p. apply quoted_is_longer.
Qed.

End RoundTrip.

(** The Widget comes back with its name and category in quotes, and with
    NaN for price and stock. *)
Lemma import_of_export_witness :
  forallb (plainProduct (B := Reference.builtins)) [widget] = true
  /\ map tuple (AddProductForm.newProducts noon (AddProductForm.csvContent [widget]))
     = [(Str.quoted "Widget", Str.quoted "Electronics", Reference.NaN, Reference.NaN)].
Proof.
  assert (H : forallb (plainProduct (B := Reference.builtins)) [widget] = true)
    by reflexivity.
  split; [exact H|].
  rewrite (proj1 (import_of_export_keeps_the_quotes [widget] noon H)).
  reflexivity.
Defined.

(** C4 fails as stated: the tuples read back from the export of the
    Widget are not the tuples of the Widget. *)
Lemma import_of_export_loses_the_tuples :
  ~ (forall t,
        In t (map tuple (AddProductForm.newProducts noon (AddProductForm.csvContent [widget])))
        <-> In t (map tuple [widget])).
Proof.
  intros H. destruct (H (tuple widget)) as [_ Hback].
  specialize (Hback (or_introl eq_refl)). vm_compute in Hback.
  destruct Hback as [Heq|[]]. discriminate Heq.
Qed.

(** ** The exported text *)
Section ExportedText.
Context {B : Builtins}.

Import AddProductForm.

(** The exported text is the header line followed by one row per
    product, in order. *)
Lemma csvContent_rows (l : list Product.t) :
  csvContent l
  = Str.join (String Str.newline EmptyString)
             ("ID,Name,Category,Price,Stock,Description,URL,UpdatedAt" :: map csvRow l).
Proof. reflexivity. Qed.

(** A row is its eight values in the order of the header, each between
    double quotes; it is the escaped row when no value but the
    description holds a double quote. *)
Lemma csvRow_escaped (p : Product.t) :
  quotesOnlyInDescription p = true -> csvRow p = escapedRow p.
Proof.
  unfold quotesOnlyInDescription. rewrite !andb_true_iff, !negb_true_iff.
  intros [[[[[[H1 H2] H3] H4] H5] H6] H7].
  unfold escapedRow, escapedField, rowValues, csvRow. cbn [map].
  now rewrite (doubleQuotes_none _ H1), (doubleQuotes_none _ H2),
    (doubleQuotes_none _ H3), (doubleQuotes_none _ H4),
    (doubleQuotes_none _ H5), (doubleQuotes_none _ H6),
    (doubleQuotes_none _ H7).
Qed.

End ExportedText.

(** C5 on a name with a double quote: the row writes the name between
    quotes as it is, where the escaped row doubles the quote inside it;
    the older copy of the form writes the row without any quoting. *)
Theorem csvRow_does_not_escape_the_name :
  AddProductForm.csvRow monitor
  = Str.join ","
      [Str.quoted "9"; Str.quoted monitorName; Str.quoted "Electronics";
       Str.quoted "120"; Str.quoted "4"; Str.quoted "Full HD";
       Str.quoted EmptyString; Str.quoted EmptyString]
  /\ escapedRow monitor
     = Str.join ","
         [Str.quoted "9"; Str.quoted ("15" +++ String Str.dquote (String Str.dquote " Monitor"));
          Str.quoted "Electronics"; Str.quoted "120"; Str.quoted "4"; Str.quoted "Full HD";
          Str.quoted EmptyString; Str.quoted EmptyString]
  /\ AddProductForm.csvRow monitor <> escapedRow monitor
  /\ LegacyAddProductForm.csvRow monitor
     = "9 " +++ monitorName +++ " Electronics 120 4 Full HD  ".
Proof.
  split; [reflexivity|]. split; [reflexivity|]. split; [|reflexivity].
  vm_compute. discriminate.
Qed.


(** * Further properties *)

(** ** Substrings and letter case *)
Section Substrings.

Import Str.

Lemma prefix_iff (a s : string) :
  String.prefix a s = true <-> exists post, s = a +++ post.
Proof.
  revert s. induction a as [|c a IH]; intros s.
  - split; [intros _; now exists s | intros _; now destruct s].
  - destruct s as [|d s].
    + split; [discriminate|]. intros [post H]. discriminate H.
    + cbn [String.prefix]. destruct (ascii_dec c d) as [->|Hne].
      * rewrite IH. split; intros [post H]; exists post.
        -- cbn [String.append]. now rewrite H.
        -- cbn [String.append] in H. now injection H.
      * split; [discriminate|]. intros [post H]. cbn [String.append] in H.
        injection H as H1 _. congruence.
Qed.

(** [includes] is the substring test. *)
Lemma includes_iff (s sub : string) :
  includes s sub = true <-> exists pre post, s = pre +++ sub +++ post.
Proof.
  induction s as [|c s IH]; cbn [includes].
  - rewrite orb_false_r, prefix_iff. split.
    + intros [post H]. now exists EmptyString, post.
    + intros [pre [post H]].
      destruct pre; cbn [String.append] in H; [now exists post|discriminate].
  - rewrite orb_true_iff, prefix_iff, IH. split.
    + intros [[post H]|[pre [post H]]].
      * now exists EmptyString, post.
      * exists (String c pre), post. cbn [String.append]. now rewrite H.
    + intros [pre [post H]]. destruct pre as [|d pre]; cbn [String.append] in H.
      * left. now exists post.
      * right. injection H as _ H. now exists pre, post.
Qed.

Lemma lower_char_idempotent (c : ascii) : lower_char (lower_char c) = lower_char c.
Proof.
  destruct c as [[] [] [] [] [] [] [] []]; reflexivity.
Qed.

Lemma toLowerCase_idempotent (s : string) : toLowerCase (toLowerCase s) = toLowerCase s.
Proof.
  induction s as [|c s IH]; simpl; auto. now rewrite lower_char_idempotent, IH.
Qed.

End Substrings.

(** ** The sort of an array *)
Section Sorting.
Context {B : Builtins}.

Lemma sortInsert_permutation (A : Type) (cmp : A -> A -> number) (x : A) (l : list A) :
  Permutation (sortInsert cmp x l) (x :: l).
Proof.
  induction l as [|y l IH]; simpl; auto.
  destruct (num_ltb (num_of_Z 0) (cmp x y)); auto.
  apply perm_trans with (y :: x :: l); [now constructor | apply perm_swap].
Qed.

(** Sorting rearranges: nothing is added, dropped or repeated. *)
Lemma sorted_permutation (A : Type) (cmp : A -> A -> number) (l : list A) :
  Permutation (sorted cmp l) l.
Proof.
  induction l as [|x l IH]; simpl; auto.
  apply perm_trans with (x :: sorted cmp l); [apply sortInsert_permutation|].
  now constructor.
Qed.

(** A comparator that never answers a positive number leaves the order. *)
Lemma sorted_keeps_order (A : Type) (cmp : A -> A -> number) (l : list A) :
  (forall a b, num_ltb (num_of_Z 0) (cmp a b) = false) -> sorted cmp l = l.
Proof.
  intros H. induction l as [|x l IH]; simpl; auto.
  rewrite IH. destruct l as [|y l]; simpl; auto. now rewrite H.
Qed.

End Sorting.

(** ** What the views hold *)
Section ViewContents.
Context {B : Builtins}.

Lemma read_last (A : Type) (h : Heap.heap A) (a : list A) :
  Heap.read (h ++ [a]) (length h) = a.
Proof. unfold Heap.read. now rewrite nth_middle. Qed.

Lemma filteredProducts_run (search categoryFilter sortBy : string) (products : Heap.ref)
  (h : Heap.heap Product.t) :
  let bySearch :=
    List.filter (fun p => Str.includes (Str.toLowerCase (Product.name p))
                                       (Str.toLowerCase search))
                (Heap.read h products) in
  let byCategory :=
    List.filter (fun p => if negb (categoryFilter =? EmptyString)
                          then Product.category p =? categoryFilter else true)
                bySearch in
  runState (ProductList.filteredProducts search categoryFilter sortBy products) h
  = (S (length h),
     h ++ [bySearch; sorted (ProductList.compareBy sortBy) byCategory]).
Proof.
  unfold ProductList.filteredProducts, Heap.filter, Heap.sort, Heap.alloc. simpl.
  rewrite read_last, update_last, read_last, <- app_assoc, length_app.
  simpl. now rewrite Nat.add_1_r.
Qed.

Lemma read_second (A : Type) (h : Heap.heap A) (a b : list A) :
  Heap.read (h ++ [a; b]) (S (length h)) = b.
Proof.
  change (h ++ [a; b]) with (h ++ [a] ++ [b]). rewrite app_assoc.
  replace (S (length h)) with (length (h ++ [a])) by (rewrite length_app; simpl; lia).
  apply read_last.
Qed.

Lemma category_test (categoryFilter : string) (p : Product.t) :
  (if negb (categoryFilter =? EmptyString)
   then Product.category p =? categoryFilter else true) = true
  <-> categoryFilter = EmptyString \/ Product.category p = categoryFilter.
Proof.
  destruct (String.eqb_spec categoryFilter EmptyString) as [E|E]; simpl.
  - tauto.
  - rewrite String.eqb_eq. tauto.
Qed.

(** X1: the list shown by ProductList holds exactly the products of the
    state whose name contains the search text, letter case aside, and
    whose category is the chosen one when one is chosen; it is a new
    array, the array of the state is left as it was, and the letter case
    of the search text does not matter. *)
Theorem filteredProducts_selects (search categoryFilter sortBy : string)
  (products : Heap.ref) (h : Heap.heap Product.t) :
  products < length h ->
  let result :=
    runState (ProductList.filteredProducts search categoryFilter sortBy products) h in
  (forall p,
      In p (Heap.read (snd result) (fst result))
      <-> In p (Heap.read h products)
          /\ (exists pre post,
                 Str.toLowerCase (Product.name p)
                 = pre +++ Str.toLowerCase search +++ post)
          /\ (categoryFilter = EmptyString \/ Product.category p = categoryFilter))
  /\ fst result <> products
  /\ Heap.read (snd result) products = Heap.read h products
  /\ runState (ProductList.filteredProducts (Str.toLowerCase search) categoryFilter
                                            sortBy products) h
     = result.
Proof.
  intros Hlt. cbv zeta. rewrite !filteredProducts_run. cbn [fst snd].
  split; [|split; [|split]].
  - intros p. rewrite read_second. split.
    + intros Hin. apply (Permutation_in _ (sorted_permutation _ _)) in Hin.
      apply filter_In in Hin. destruct Hin as [Hin Hc].
      apply filter_In in Hin. destruct Hin as [Hin Hs].
      split; [exact Hin|]. split; [now apply includes_iff | now apply category_test].
    + intros [Hin [Hs Hc]].
      apply (Permutation_in _ (Permutation_sym (sorted_permutation _ _))).
      apply filter_In. split; [|now apply category_test].
      apply filter_In. split; [exact Hin | now apply includes_iff].
  - lia.
  - now apply read_app_l.
  - now rewrite toLowerCase_idempotent.
Qed.

Lemma compareBy_other (sortBy : string) (a b : Product.t) :
  ~ In sortBy ["price-asc"; "price-desc"; "name-asc"; "name-desc"] ->
  ProductList.compareBy sortBy a b = num_of_Z 0.
Proof.
  intros H. unfold ProductList.compareBy.
  destruct (String.eqb_spec sortBy "price-asc") as [E|_]; [exfalso; apply H; simpl; auto|].
  destruct (String.eqb_spec sortBy "price-desc") as [E|_]; [exfalso; apply H; simpl; auto|].
  destruct (String.eqb_spec sortBy "name-asc") as [E|_]; [exfalso; apply H; simpl; auto|].
  destruct (String.eqb_spec sortBy "name-desc") as [E|_]; [exfalso; apply H; simpl; auto|].
  reflexivity.
Qed.

(** X2: with a sort key that is none of the four the comparator knows
    (the default entry of the menu), the list shows the selected products
    in the order the state holds them. *)
Theorem filteredProducts_default_order (search categoryFilter sortBy : string)
  (products : Heap.ref) (h : Heap.heap Product.t) :
  ~ In sortBy ["price-asc"; "price-desc"; "name-asc"; "name-desc"] ->
  num_ltb (num_of_Z 0) (num_of_Z 0) = false ->
  let result :=
    runState (ProductList.filteredProducts search categoryFilter sortBy products) h in
  Heap.read (snd result) (fst result)
  = List.filter (fun p => if negb (categoryFilter =? EmptyString)
                          then Product.category p =? categoryFilter else true)
      (List.filter (fun p => Str.includes (Str.toLowerCase (Product.name p))
                                          (Str.toLowerCase search))
                   (Heap.read h products)).
Proof.
  intros Hkey Hzero. cbv zeta. rewrite filteredProducts_run. cbn [fst snd].
  rewrite read_second. apply sorted_keeps_order.
  intros a b. now rewrite (@compareBy_other sortBy a b Hkey).
Qed.

Lemma in_firstn (A : Type) (n : nat) (l : list A) (x : A) :
  In x (firstn n l) -> In x l.
Proof.
  intros H. rewrite <- (firstn_skipn n l). apply in_or_app. now left.
Qed.

Lemma lowStockProducts_run (products : Heap.ref) (h : Heap.heap Product.t) :
  let low := List.filter (fun p => num_ltb (Product.stock p) (num_of_Z 10))
                         (Heap.read h products) in
  let ordered := sorted (fun a b => num_sub (Product.stock a) (Product.stock b)) low in
  runState (AdminDashboard.lowStockProducts products) h
  = (S (length h), h ++ [ordered; firstn 5 ordered]).
Proof.
  unfold AdminDashboard.lowStockProducts, Heap.filter, Heap.sort, Heap.slice, Heap.alloc.
  simpl. rewrite !read_last, update_last, read_last, <- app_assoc, length_app.
  simpl. now rewrite Nat.add_1_r.
Qed.

(** X3: the low-stock list of the dashboard holds at most five products,
    as many as there are products below 10 units when these are fewer;
    each of them is a product of the state with less than 10 units, and
    the array of the state is left as it was. *)
Theorem lowStockProducts_at_most_five (products : Heap.ref) (h : Heap.heap Product.t) :
  products < length h ->
  let result := runState (AdminDashboard.lowStockProducts products) h in
  let view := Heap.read (snd result) (fst result) in
  length view
  = Nat.min 5 (length (List.filter (fun p => num_ltb (Product.stock p) (num_of_Z 10))
                                   (Heap.read h products)))
  /\ (forall p, In p view ->
                In p (Heap.read h products)
                /\ num_ltb (Product.stock p) (num_of_Z 10) = true)
  /\ Heap.read (snd result) products = Heap.read h products.
Proof.
  intros Hlt. cbv zeta. rewrite lowStockProducts_run. cbn [fst snd].
  rewrite read_second. split; [|split].
  - rewrite length_firstn. f_equal. apply Permutation_length, sorted_permutation.
  - intros p Hin. apply in_firstn in Hin.
    apply (Permutation_in _ (sorted_permutation _ _)) in Hin.
    now apply filter_In in Hin.
  - now apply read_app_l.
Qed.

End ViewContents.

(** The search WID in the list of the Widget and the Gadget shows the
    Widget, in a new array. *)
Lemma filteredProducts_selects_witness :
  let result :=
    runState (ProductList.filteredProducts (B := Reference.builtins)
                "WID" EmptyString EmptyString 0) shelves in
  0 < length shelves
  /\ In widget (Heap.read (snd result) (fst result))
  /\ fst result <> 0.
Proof.
  cbv zeta. assert (H : 0 < length shelves) by (simpl; lia).
  destruct (@filteredProducts_selects Reference.builtins "WID" EmptyString EmptyString
              0 shelves H) as [Hin [Hnew _]].
  split; [exact H|]. split; [|exact Hnew].
  apply Hin. split; [simpl; auto|]. split; [|now left].
  exists EmptyString, "get". reflexivity.
Defined.

(** Without sort key the list shows the Widget before the Gadget, as the
    state holds them. *)
Lemma filteredProducts_default_order_witness :
  let result :=
    runState (ProductList.filteredProducts (B := Reference.builtins)
                EmptyString EmptyString EmptyString 0) shelves in
  ~ In EmptyString ["price-asc"; "price-desc"; "name-asc"; "name-desc"]
  /\ Heap.read (snd result) (fst result) = [widget; gadget].
Proof.
  cbv zeta.
  assert (H : ~ In EmptyString ["price-asc"; "price-desc"; "name-asc"; "name-desc"])
    by (intros [H|[H|[H|[H|[]]]]]; discriminate).
  split; [exact H|].
  rewrite (@filteredProducts_default_order Reference.builtins EmptyString EmptyString
             EmptyString 0 shelves H eq_refl).
  reflexivity.
Defined.

(** Of the Widget (5 units) and the Gadget (50 units) the dashboard lists
    one product. *)
Lemma lowStockProducts_at_most_five_witness :
  let result := runState (AdminDashboard.lowStockProducts (B := Reference.builtins) 0)
                         shelves in
  0 < length shelves
  /\ length (Heap.read (snd result) (fst result)) = 1.
Proof.
  cbv zeta. assert (H : 0 < length shelves) by (simpl; lia).
  split; [exact H|].
  rewrite (proj1 (@lowStockProducts_at_most_five Reference.builtins 0 shelves H)).
  reflexivity.
Defined.

(** ** The handlers of the product list *)
Section ListHandlers.
Context {B : Builtins}.

Import ProductList.

Lemma addProduct_no_collision (product : NewProduct.t) (l : list Product.t) :
  (~ exists p, In p l /\ nameKey p = Str.toLowerCase (NewProduct.name product)) ->
  existsb (fun p => sameName (Product.name p) (NewProduct.name product)) l = false.
Proof.
  intros H. destruct (existsb _ l) eqn:E; auto.
  exfalso. apply H. now apply addProduct_collision_iff.
Qed.

Lemma updateProduct_no_collision (updated : Product.t) (l : list Product.t) :
  (~ exists p, In p l /\ nameKey p = nameKey updated
               /\ Product.id p <> Product.id updated) ->
  existsb (fun p => sameName (Product.name p) (Product.name updated)
                    && negb (Product.id p =? Product.id updated)) l = false.
Proof.
  intros H. destruct (existsb _ l) eqn:E; auto.
  exfalso. apply H. now apply updateProduct_collision_iff.
Qed.

Lemma filter_all (A : Type) (f : A -> bool) (l : list A) :
  (forall x, In x l -> f x = true) -> List.filter f l = l.
Proof.
  induction l as [|a l IH]; simpl; intros H; auto.
  rewrite (H a (or_introl eq_refl)), IH; auto.
Qed.

Lemma map_unchanged (A : Type) (f : A -> A) (l : list A) :
  (forall x, In x l -> f x = x) -> map f l = l.
Proof.
  induction l as [|a l IH]; simpl; intros H; auto.
  rewrite (H a (or_introl eq_refl)), IH; auto.
Qed.

(** X4: when its backend call is rejected, a handler of the list leaves
    the whole state as it was and shows exactly one notification, an
    error; no success is ever announced for a rejected call. *)
Theorem rejected_call_changes_nothing (st : State) :
  (fetchProducts None st = (st, [HttpGet endpoint;
                                 ToastError "Failed to fetch products!" None;
                                 ConsoleError "Fetch products error:"]))
  /\ (forall product,
         fst (addProduct None product st) = st
         /\ List.filter isToastSuccess (snd (addProduct None product st)) = []
         /\ length (List.filter isToast (snd (addProduct None product st))) = 1)
  /\ (forall updated,
         fst (updateProduct None updated st) = st
         /\ List.filter isToastSuccess (snd (updateProduct None updated st)) = []
         /\ length (List.filter isToast (snd (updateProduct None updated st))) = 1)
  /\ (forall id,
         deleteProduct false id st
         = (st, [HttpDelete (endpoint +++ "/" +++ id);
                 ToastError "Failed to delete product!" None;
                 ConsoleError "Delete product error:"])).
Proof.
  split; [reflexivity|]. split; [|split]; [| |reflexivity].
  - intros product. unfold addProduct.
    destruct (existsb _ (products st)); repeat split; reflexivity.
  - intros updated. unfold updateProduct.
    destruct (existsb _ (products st)); repeat split; reflexivity.
Qed.

Lemma addProductOf_current (response : option Product.t) (product : NewProduct.t)
  (st : State) :
  addProductOf st response product st = addProduct response product st.
Proof. reflexivity. Qed.

(** X5: addProduct appends to the array of its own render.  A candidate
    whose name no entry of that array carries, letter case aside, and
    whose POST resolves sets the collection to that array with the
    backend's record at its end, whatever the collection holds by then;
    the product being edited stays and the form is closed.  A product
    added since that render, other than the new record, is therefore
    dropped: this is the call the bulk upload makes.  When the collection
    is still the array of that render, as in the call the form makes, it
    gets one longer, its entries keep their places, and deleting the id
    the backend gave, when no other entry has it, gives the collection
    back. *)
Theorem addProduct_appends (data : Product.t) (product : NewProduct.t)
  (captured st : State) :
  (~ exists p, In p (products captured)
               /\ nameKey p = Str.toLowerCase (NewProduct.name product)) ->
  let result := addProductOf captured (Some data) product st in
  products (fst result) = products captured ++ [data]
  /\ editingProduct (fst result) = editingProduct st
  /\ isAddFormOpen (fst result) = false
  /\ snd result
     = [HttpPost endpoint product;
        ToastSuccess ("Product " +++ Str.quoted (NewProduct.name product)
                        +++ " added successfully!")]
  /\ (forall q, In q (products st) -> ~ In q (products captured) -> q <> data ->
                ~ In q (products (fst result)))
  /\ addProduct (Some data) product captured
     = addProductOf captured (Some data) product captured
  /\ (products st = products captured ->
      length (products (fst result)) = S (length (products st))
      /\ (forall i, i < length (products st) ->
                    nth_error (products (fst result)) i = nth_error (products st) i)
      /\ ((forall p, In p (products st) -> Product.id p <> Product.id data) ->
          products (fst (deleteProduct true (Product.id data) (fst result)))
          = products st)).
Proof.
  intros Hnew. cbv zeta. unfold addProductOf.
  rewrite (addProduct_no_collision product (products captured) Hnew).
  cbn [fst snd products editingProduct isAddFormOpen].
  split; [reflexivity|]. split; [reflexivity|]. split; [reflexivity|].
  split; [reflexivity|]. split; [|split].
  - intros q _ Hold Hq Hin. apply in_app_or in Hin.
    destruct Hin as [Hin|[Hin|[]]]; [now apply Hold | now apply Hq].
  - unfold addProduct.
    now rewrite (addProduct_no_collision product (products captured) Hnew).
  - intros Hsame. rewrite Hsame. split; [|split].
    + rewrite length_app. simpl. lia.
    + intros i Hi. now apply nth_error_app1.
    + intros Hfresh. unfold deleteProduct. cbn [fst products setProducts].
      rewrite filter_app. simpl. rewrite String.eqb_refl. simpl. rewrite app_nil_r.
      apply filter_all. intros p Hin. apply negb_true_iff, String.eqb_neq.
      now apply Hfresh.
Qed.

(** X6: an update that collides with no other entry and whose PUT
    resolves keeps the length and the places of the collection: every
    entry with the updated id becomes the record the backend answered
    with, every other entry stays; the ids stay as they were when the
    answer carries the updated id; and when no entry has that id the
    collection is unchanged although the PUT was sent and a success is
    announced. *)
Theorem updateProduct_replaces_in_place (data updated : Product.t) (st : State) :
  (~ exists p, In p (products st) /\ nameKey p = nameKey updated
               /\ Product.id p <> Product.id updated) ->
  let result := updateProduct (Some data) updated st in
  length (products (fst result)) = length (products st)
  /\ (forall i p, nth_error (products st) i = Some p ->
                  nth_error (products (fst result)) i
                  = Some (if Product.id p =? Product.id updated then data else p))
  /\ (Product.id data = Product.id updated ->
      map Product.id (products (fst result)) = map Product.id (products st))
  /\ ((forall p, In p (products st) -> Product.id p <> Product.id updated) ->
      products (fst result) = products st
      /\ List.filter isNetworkCall (snd result)
         = [HttpPut (endpoint +++ "/" +++ Product.id updated) updated]
      /\ List.filter isToastSuccess (snd result)
         = [ToastSuccess ("Product " +++ Str.quoted (Product.name updated)
                            +++ " updated successfully!")])
  /\ editingProduct (fst result) = None.
Proof.
  intros Hnew. cbv zeta. unfold updateProduct.
  rewrite (updateProduct_no_collision updated (products st) Hnew). cbn [fst snd products].
  split; [apply length_map|]. split; [|split; [|split]]; [| | |reflexivity].
  - intros i p Hi. now rewrite nth_error_map, Hi.
  - intros Hid. rewrite map_map. apply map_ext. intros p.
    destruct (String.eqb_spec (Product.id p) (Product.id updated)); congruence.
  - intros Habsent. split; [|split].
    + apply map_unchanged. intros p Hin.
      destruct (String.eqb_spec (Product.id p) (Product.id updated)) as [E|E]; auto.
      now apply Habsent in Hin.
    + simpl. destruct (lowStock data); reflexivity.
    + simpl. destruct (lowStock data); reflexivity.
Qed.

(** X7: after a delete that the backend accepts the collection holds
    exactly the entries with another id, in their order; deleting again
    changes nothing more; and for an id that no entry has the collection
    is unchanged while the DELETE is sent and the success names the
    product undefined. *)
Theorem deleteProduct_removes_the_id (id : string) (st : State) :
  let result := deleteProduct true id st in
  (forall p, In p (products (fst result)) <-> In p (products st) /\ Product.id p <> id)
  /\ products (fst result)
     = List.filter (fun p => negb (Product.id p =? id)) (products st)
  /\ products (fst (deleteProduct true id (fst result))) = products (fst result)
  /\ ((forall p, In p (products st) -> Product.id p <> id) ->
      deleteProduct true id st
      = (st, [HttpDelete (endpoint +++ "/" +++ id);
              ToastSuccess ("Product " +++ Str.quoted "undefined"
                              +++ " deleted successfully!")])).
Proof.
  cbv zeta. unfold deleteProduct. cbn [fst snd products setProducts].
  split; [|split; [reflexivity|split]].
  - intros p. rewrite filter_In, negb_true_iff, String.eqb_neq. tauto.
  - apply filter_all. intros p Hin. apply filter_In in Hin. tauto.
  - intros Habsent.
    assert (Hfind : find (fun p => Product.id p =? id) (products st) = None).
    { destruct (find _ (products st)) as [p|] eqn:E; auto.
      apply find_some in E. destruct E as [Hin Hid].
      apply String.eqb_eq in Hid. now apply Habsent in Hin. }
    rewrite Hfind. f_equal.
    unfold setProducts. rewrite filter_all.
    + now destruct st.
    + intros p Hin. apply negb_true_iff, String.eqb_neq. now apply Habsent.
Qed.

End ListHandlers.

(** The Gizmo, added by the addProduct of the render that held the
    Widget and the Gadget when the collection holds the Pen too, is put
    behind the Widget and the Gadget, and the Pen is gone. *)
Lemma addProduct_appends_witness :
  (~ exists p, In p (ProductList.products catalogue)
               /\ nameKey p = Str.toLowerCase (NewProduct.name gizmoForm))
  /\ ProductList.products
       (fst (ProductList.addProductOf catalogue (Some gizmo) gizmoForm withPen))
     = [widget; gadget; gizmo]
  /\ ~ In pen (ProductList.products
                 (fst (ProductList.addProductOf catalogue (Some gizmo) gizmoForm withPen))).
Proof.
  assert (H : ~ exists p, In p (ProductList.products catalogue)
                          /\ nameKey p = Str.toLowerCase (NewProduct.name gizmoForm)).
  { intros [p [[<-|[<-|[]]] Hp]]; discriminate. }
  split; [exact H|].
  destruct (@addProduct_appends Reference.builtins gizmo gizmoForm catalogue withPen H)
    as [Hall [_ [_ [_ [Hdrop _]]]]].
  split; [exact Hall|].
  apply (Hdrop pen).
  - simpl. auto.
  - intros [Hp|[Hp|[]]]; discriminate.
  - discriminate.
Defined.

(** Renaming the Gadget keeps two entries, the Widget first. *)
Lemma updateProduct_replaces_in_place_witness :
  (~ exists p, In p (ProductList.products catalogue) /\ nameKey p = nameKey gadgetPro
               /\ Product.id p <> Product.id gadgetPro)
  /\ length (ProductList.products
               (fst (ProductList.updateProduct (Some gadgetPro) gadgetPro catalogue)))
     = 2
  /\ nth_error (ProductList.products
                  (fst (ProductList.updateProduct (Some gadgetPro) gadgetPro catalogue))) 1
     = Some gadgetPro.
Proof.
  assert (H : ~ exists p, In p (ProductList.products catalogue)
                          /\ nameKey p = nameKey gadgetPro
                          /\ Product.id p <> Product.id gadgetPro).
  { intros [p [[<-|[<-|[]]] [Hp _]]]; discriminate. }
  split; [exact H|].
  destruct (@updateProduct_replaces_in_place Reference.builtins gadgetPro gadgetPro
              catalogue H) as [Hlen [Hnth _]].
  split; [exact Hlen|]. exact (Hnth 1 gadget eq_refl).
Defined.

(** ** The form inside the product list *)
Section FormAndList.
Context {B : Builtins}.

Lemma handleSubmit_cases (now : string) (form : AddProductForm.State) :
  AddProductForm.handleSubmit now form
  = if formInvalid (AddProductForm.product form)
    then (form, [ToastError "Please fill all required fields with valid values!" None])
    else (AddProductForm.mkState AddProductForm.emptyProduct
                                 (AddProductForm.isGenerating form),
          [OnAdd (stamped now (AddProductForm.product form));
           ToastSuccess "Product added successfully!"]).
Proof. reflexivity. Qed.

(** X8: a form that fails the validation changes nothing and calls no
    one.  A form that passes it is cleared and announces that the product
    was added whatever addProduct then does: after the duplicate-entry
    error when the name is taken (no call, collection unchanged), before
    the failure of a rejected POST (collection unchanged), and before the
    second success of a resolved one, which alone extends the
    collection. *)
Theorem submit_announces_success_regardless (now : string) (response : option Product.t)
  (form : AddProductForm.State) (st : ProductList.State) :
  let p := AddProductForm.product form in
  let cleared :=
    AddProductForm.mkState AddProductForm.emptyProduct (AddProductForm.isGenerating form) in
  (formInvalid p = true ->
   FormInList.submit now response form st
   = (form, st, [ToastError "Please fill all required fields with valid values!" None]))
  /\ (formInvalid p = false ->
      (exists p', In p' (ProductList.products st)
                  /\ nameKey p' = Str.toLowerCase (NewProduct.name p)) ->
      FormInList.submit now response form st
      = (cleared, st,
         [ProductList.duplicateEntry (NewProduct.name p);
          ToastSuccess "Product added successfully!"]))
  /\ (formInvalid p = false ->
      (~ exists p', In p' (ProductList.products st)
                    /\ nameKey p' = Str.toLowerCase (NewProduct.name p)) ->
      FormInList.submit now None form st
      = (cleared, st,
         [HttpPost ProductList.endpoint (stamped now p);
          ToastSuccess "Product added successfully!";
          ToastError "Failed to add product!" None;
          ConsoleError "Add product error:"])
      /\ forall data,
           FormInList.submit now (Some data) form st
           = (cleared,
              ProductList.mkState (ProductList.products st ++ [data])
                                  (ProductList.editingProduct st) false,
              [HttpPost ProductList.endpoint (stamped now p);
               ToastSuccess "Product added successfully!";
               ToastSuccess ("Product " +++ Str.quoted (NewProduct.name p)
                               +++ " added successfully!")])).
Proof.
  cbv zeta. unfold FormInList.submit. rewrite handleSubmit_cases.
  split; [|split].
  - intros ->. reflexivity.
  - intros -> Hc. unfold ProductList.addProduct.
    apply addProduct_collision_iff in Hc. cbn [NewProduct.name stamped].
    now rewrite Hc.
  - intros -> Hnew. unfold ProductList.addProduct.
    apply addProduct_no_collision in Hnew. cbn [NewProduct.name stamped].
    rewrite Hnew. split; [reflexivity|]. intros data. reflexivity.
Qed.

End FormAndList.

(** ** More on the bulk upload *)
Section ImportFacts.
Context {B : Builtins}.

Import AddProductForm.

(** X9: a line made of values without comma, joined by commas, is read
    back value by value: it is a row exactly when its first five values
    are there and non-empty, the row then holds the first three as id,
    name and category, Number of the fourth and fifth as price and stock,
    the sixth as description (empty when missing), the seventh as url
    (undefined when missing or empty) and the eighth as updatedAt (the
    current time when missing or empty); further values are ignored. *)
Theorem parseLine_reads_joined_values (now : string) (values : list string) :
  forallb (fun s => negb (Str.has_char Str.comma s)) values = true ->
  parseLine now (Str.join "," values)
  = if forallb (fun i => Str.truthy (nth_error values i)) [0; 1; 2; 3; 4]%nat
    then Some (Product.mk (Str.the (nth_error values 0)) (Str.the (nth_error values 1))
                          (Str.the (nth_error values 2))
                          (Number (Str.the (nth_error values 3)))
                          (Number (Str.the (nth_error values 4)))
                          (Str.orElse (nth_error values 5) EmptyString)
                          (Str.orUndefined (nth_error values 6))
                          (Some (Str.orElse (nth_error values 7) now)))
    else None.
Proof.
  intros Hplain. destruct values as [|v values]; [reflexivity|].
  rewrite parseLine_accepted. unfold accepted, converted.
  change (Str.join "," (v :: values))
    with (Str.join (String Str.comma EmptyString) (v :: values)).
  rewrite split_join; [reflexivity|discriminate|exact Hplain].
Qed.

Lemma has_char_commasToSpaces (s : string) :
  Str.has_char Str.comma (Str.commasToSpaces s) = false.
Proof.
  induction s as [|c s IH]; auto.
  cbn [Str.commasToSpaces]. rewrite has_char_String, IH.
  destruct (Ascii.eqb_spec c Str.comma) as [->|Hc]; [reflexivity|].
  apply Ascii.eqb_neq in Hc. now rewrite Hc.
Qed.

(** The pieces of a split hold no character that the text does not. *)
Lemma split_pieces_plain (d c : ascii) (s piece : string) :
  Str.has_char c s = false -> In piece (Str.split d s) -> Str.has_char c piece = false.
Proof.
  revert piece. induction s as [|a s IH]; intros piece Hs Hin.
  - simpl in Hin. destruct Hin as [<-|[]]. reflexivity.
  - rewrite has_char_String in Hs. apply orb_false_iff in Hs. destruct Hs as [Ha Hs].
    cbn [Str.split] in Hin. destruct (Ascii.eqb a d).
    + destruct Hin as [<-|Hin]; [reflexivity | now apply IH].
    + destruct (Str.split d s) as [|first pieces] eqn:E.
      * destruct Hin as [<-|[]]. now rewrite has_char_String, Ha.
      * destruct Hin as [<-|Hin].
        -- rewrite has_char_String, Ha. apply (IH first Hs). now left.
        -- apply (IH piece Hs). now right.
Qed.

Lemma parseLine_without_comma (now line : string) :
  Str.has_char Str.comma line = false -> parseLine now line = None.
Proof.
  intros H. unfold parseLine. rewrite (split_no_separator _ _ H). simpl.
  now rewrite orb_true_r.
Qed.

Lemma parseLines_without_comma (clock : nat -> string) (i : nat) (lines : list string) :
  (forall line, In line lines -> Str.has_char Str.comma line = false) ->
  parseLines clock i lines = [].
Proof.
  revert i. induction lines as [|line lines IH]; intros i H; simpl; auto.
  rewrite parseLine_without_comma by (apply H; now left).
  apply IH. intros l Hl. apply H. now right.
Qed.

Lemma legacy_rows_without_comma (l : list Product.t) :
  Str.has_char Str.comma
    (Str.join (String Str.newline EmptyString) (map LegacyAddProductForm.csvRow l)) = false.
Proof.
  rewrite has_char_join by reflexivity.
  induction l as [|p l IH]; simpl; auto.
  unfold LegacyAddProductForm.csvRow at 1. now rewrite has_char_commasToSpaces, IH.
Qed.

Lemma legacy_export_has_no_row (clock : nat -> string) (l : list Product.t) :
  newProducts clock (LegacyAddProductForm.csvContent l) = [].
Proof.
  unfold newProducts, dataLines, LegacyAddProductForm.csvContent.
  destruct l as [|p l]; [reflexivity|].
  change (Str.join (String Str.newline EmptyString)
            ([LegacyAddProductForm.csvHeader] ++ map LegacyAddProductForm.csvRow (p :: l)))
    with (LegacyAddProductForm.csvHeader
            +++ String Str.newline
                  (Str.join (String Str.newline EmptyString)
                            (map LegacyAddProductForm.csvRow (p :: l)))).
  rewrite split_at_separator by reflexivity. cbn [skipn].
  apply parseLines_without_comma. intros line Hin.
  apply (split_pieces_plain Str.newline Str.comma _ line (legacy_rows_without_comma (p :: l)) Hin).
Qed.

(** X10: the file that the older form exports is never read back by its
    own upload: every comma of a row, separators included, was replaced
    by a space, so no line has a second value, every line is dropped, and
    the upload posts nothing and shows nothing, whatever the products. *)
Theorem legacy_export_is_never_imported (l : list Product.t) (clock : nat -> string)
  (postOk : nat -> bool) :
  LegacyBulkUpload.handleBulkUpload (Some (LegacyAddProductForm.csvContent l)) clock postOk
  = []
  /\ handleBulkUpload (Some (LegacyAddProductForm.csvContent l)) clock postOk = [].
Proof.
  unfold LegacyBulkUpload.handleBulkUpload, handleBulkUpload.
  now rewrite legacy_export_has_no_row.
Qed.

(** X11: the first line of the file is never imported, whatever it
    holds: two files that differ in their first line only are uploaded
    alike, and a file of one line uploads nothing. *)
Theorem first_line_is_never_imported (first first' rest : string) (clock : nat -> string)
  (postOk : nat -> bool) :
  Str.has_char Str.newline first = false ->
  Str.has_char Str.newline first' = false ->
  handleBulkUpload (Some (first +++ String Str.newline rest)) clock postOk
  = handleBulkUpload (Some (first' +++ String Str.newline rest)) clock postOk
  /\ handleBulkUpload (Some first) clock postOk = [].
Proof.
  intros H H'. unfold handleBulkUpload, newProducts, dataLines.
  rewrite (split_at_separator _ _ rest H), (split_at_separator _ _ rest H'),
    (split_no_separator _ _ H).
  split; reflexivity.
Qed.

Lemma filter_none (A : Type) (f : A -> bool) (l : list A) :
  forallb (fun x => negb (f x)) l = true -> List.filter f l = [].
Proof.
  induction l as [|x l IH]; simpl; auto.
  intros H. apply andb_true_iff in H. destruct H as [Hx Hl].
  apply negb_true_iff in Hx. rewrite Hx. auto.
Qed.

Lemma successes_next (postOk : nat -> bool) (i n : nat) :
  successes postOk i (S n)
  = ((if postOk i then 1 else 0) + successes postOk (S i) n)%nat.
Proof. unfold successes. simpl. now destruct (postOk i). Qed.

Lemma upload_sorts_rows (postOk : nat -> bool) (rows : list Product.t) (i n : nat) :
  let trace := fst (upload postOk i rows n) in
  List.filter isOnAdd trace
  = map (fun p => OnAdd (candidateOf p)) (rowsWhere postOk i rows)
  /\ List.filter isFailureToast trace
     = map uploadFailure (rowsWhere (fun k => negb (postOk k)) i rows)
  /\ length (rowsWhere postOk i rows) = successes postOk i (length rows).
Proof.
  cbv zeta. revert i n.
  induction rows as [|p l IH]; intros i n; [repeat split|].
  cbn [upload rowsWhere length]. rewrite successes_next.
  destruct (postOk i).
  - specialize (IH (S i) (S n)). destruct (upload postOk (S i) l (S n)) as [events k].
    cbn [fst negb List.filter isOnAdd isFailureToast map length] in *.
    destruct IH as [H1 [H2 H3]]. now rewrite H1, H2, H3.
  - specialize (IH (S i) n). destruct (upload postOk (S i) l n) as [events k].
    cbn [fst negb List.filter isOnAdd isFailureToast map length] in *.
    destruct IH as [H1 [H2 H3]]. now rewrite H1, H2, H3.
Qed.

(** X12: every row the upload posts is accounted for once, by the
    outcome of its POST.  The rows posted are the accepted lines, in
    order; the calls of onAdd are, in order, those for the rows whose
    POST resolved, each with the row less its id; the failure toasts are,
    in order, those naming the rows whose POST was rejected; and the one
    closing toast, shown when at least one POST resolved, carries the
    number of rows whose POST resolved. *)
Theorem upload_accounts_for_every_row (text : string) (clock : nat -> string)
  (postOk : nat -> bool) :
  let rows := newProducts clock text in
  let trace := handleBulkUpload (Some text) clock postOk in
  let resolved := rowsWhere postOk 0 rows in
  let rejected := rowsWhere (fun i => negb (postOk i)) 0 rows in
  List.filter isNetworkCall trace = map (HttpPostRow api) rows
  /\ List.filter isOnAdd trace = map (fun p => OnAdd (candidateOf p)) resolved
  /\ List.filter isFailureToast trace = map uploadFailure rejected
  /\ List.filter isToastSuccess trace
     = (if (0 <? length resolved)%nat
        then [ToastSuccess (uploadedMessage (length resolved))] else []).
Proof.
  cbv zeta. rewrite handleBulkUpload_trace. cbv zeta.
  set (rows := newProducts clock text).
  destruct (upload_sorts_rows postOk rows 0 0) as [H1 [H2 H3]].
  rewrite <- H3.
  assert (Hnone : List.filter isToastSuccess (fst (upload postOk 0 rows 0)) = [])
    by apply filter_none, upload_reports_nothing.
  rewrite !filter_app, upload_posts, H1, H2, Hnone.
  destruct (0 <? length (rowsWhere postOk 0 rows))%nat; cbn [List.filter isNetworkCall
    isOnAdd isFailureToast isToastSuccess app]; rewrite ?app_nil_r; repeat split.
Qed.

End ImportFacts.

(** The line of the Pen is read back as the Pen. *)
Lemma parseLine_reads_joined_values_witness :
  forallb (fun s => negb (Str.has_char Str.comma s)) penValues = true
  /\ AddProductForm.parseLine (B := Reference.builtins) (noon 0) "11,Pen,Books,3,20"
     = Some pen.
Proof.
  split; [reflexivity|].
  exact (@parseLine_reads_joined_values Reference.builtins (noon 0) penValues eq_refl).
Defined.

(** A file whose first line is the line of the Pen: with the Mug on the
    second line it is uploaded as the file with the usual header, and
    alone it uploads nothing. *)
Lemma first_line_is_never_imported_witness :
  Str.has_char Str.newline "11,Pen,Books,3,20" = false
  /\ Str.has_char Str.newline AddProductForm.csvHeader = false
  /\ AddProductForm.handleBulkUpload (B := Reference.builtins)
       (Some ("11,Pen,Books,3,20" +++ String Str.newline "13,Mug,Books,8,15"))
       noon (fun _ => true)
     = AddProductForm.handleBulkUpload
         (Some (AddProductForm.csvHeader +++ String Str.newline "13,Mug,Books,8,15"))
         noon (fun _ => true)
  /\ AddProductForm.handleBulkUpload (B := Reference.builtins)
       (Some "11,Pen,Books,3,20") noon (fun _ => true) = [].
Proof.
  split; [reflexivity|]. split; [reflexivity|].
  exact (@first_line_is_never_imported Reference.builtins "11,Pen,Books,3,20"
           AddProductForm.csvHeader "13,Mug,Books,8,15" noon (fun _ => true)
           eq_refl eq_refl).
Defined.

(** ** The PDF export *)
Section PdfLayout.
Context {B : Builtins}.
Variable toFixed2 : number -> string.
Variable currency : string.

Lemma lineY_next (i : nat) :
  ((270 <? lineY i + 10)%Z = true /\ lineY (S i) = 20%Z /\ (S i / 26 = S (i / 26))%nat)
  \/ ((270 <? lineY i + 10)%Z = false /\ lineY (S i) = (lineY i + 10)%Z
      /\ (S i / 26 = i / 26)%nat).
Proof.
  unfold lineY.
  pose proof (Nat.div_mod_eq i 26) as Hi.
  pose proof (Nat.div_mod_eq (S i) 26) as Hs.
  pose proof (Nat.mod_upper_bound i 26) as Bi.
  pose proof (Nat.mod_upper_bound (S i) 26) as Bs.
  destruct (Z.ltb_spec 270 (20 + 10 * Z.of_nat (i mod 26) + 10)); [left|right];
    repeat split; lia.
Qed.

Lemma productLines_from (products : list Product.t) (i : nat) :
  let ops := ExportToPDF.productLines toFixed2 currency products (lineY i) in
  bodyLines ops
  = map (fun kp => (ExportToPDF.lineText toFixed2 currency (snd kp), 20%Z,
                    lineY (fst kp), 170%Z))
        (combine (seq i (length products)) products)
  /\ (length (List.filter isAddPage ops) + i / 26 = (i + length products) / 26)%nat.
Proof.
  cbv zeta. revert i. induction products as [|p rest IH]; intros i.
  - simpl. split; auto. now rewrite Nat.add_0_r.
  - cbn [ExportToPDF.productLines length seq combine map].
    destruct (lineY_next i) as [[Hy [Hn Hd]]|[Hy [Hn Hd]]]; rewrite Hy;
      destruct (IH (S i)) as [IH1 IH2]; rewrite Hn, Hd in *.
    + cbn [bodyLines flat_map List.filter isAddPage length app] in *.
      fold (bodyLines (ExportToPDF.productLines toFixed2 currency rest 20)).
      rewrite IH1. split; [reflexivity|].
      rewrite <- Nat.add_succ_comm, <- IH2. simpl. lia.
    + cbn [bodyLines flat_map List.filter isAddPage length app] in *.
      fold (bodyLines (ExportToPDF.productLines toFixed2 currency rest (lineY i + 10))).
      rewrite IH1. split; [reflexivity|].
      now rewrite <- Nat.add_succ_comm, <- IH2.
Qed.

Lemma bodyLines_app (a b : list ExportToPDF.docOp) :
  bodyLines (a ++ b) = bodyLines a ++ bodyLines b.
Proof. unfold bodyLines. now rewrite flat_map_app. Qed.

(** X13: the layout of the exported PDF.  After the title, the document
    holds one line per product, in the order of the backend's answer, at
    x = 20 with maximal width 170; the k-th product (from 1) is written
    at height 20 + 10 * (k mod 26), so between 20 and 270: 25 lines on
    the first page, 26 on the others.  A page is added after the 25th
    product and after every 26th from there, (n + 1) / 26 pages in all,
    whether or not a product follows: with exactly 25 products the
    document ends with an empty page.  The document is then saved as
    products.pdf; when the call is rejected nothing is written. *)
Theorem exportToPDF_layout (products : list Product.t) :
  let ops := fst (ExportToPDF.exportToPDF toFixed2 currency (Some products)) in
  bodyLines ops
  = map (fun kp => (ExportToPDF.lineText toFixed2 currency (snd kp), 20%Z,
                    lineY (fst kp), 170%Z))
        (combine (seq 1 (length products)) products)
  /\ (forall text x y width, In (text, x, y, width) (bodyLines ops) ->
                             (20 <= y <= 270)%Z)
  /\ length (List.filter isAddPage ops) = ((length products + 1) / 26)%nat
  /\ last ops ExportToPDF.AddPage = ExportToPDF.Save "products.pdf"
  /\ fst (ExportToPDF.exportToPDF toFixed2 currency None) = [].
Proof.
  cbv zeta. cbn [ExportToPDF.exportToPDF fst].
  destruct (productLines_from products 1) as [H1 H2].
  change (lineY 1) with 30%Z in H1, H2.
  assert (Hlines : bodyLines
                     ([ExportToPDF.SetFontSize 16; ExportToPDF.Text "Product List" 20 20 None;
                       ExportToPDF.SetFontSize 12]
                        ++ ExportToPDF.productLines toFixed2 currency products 30
                        ++ [ExportToPDF.Save "products.pdf"])
                   = map (fun kp => (ExportToPDF.lineText toFixed2 currency (snd kp), 20%Z,
                                     lineY (fst kp), 170%Z))
                         (combine (seq 1 (length products)) products)).
  { rewrite !bodyLines_app, H1. simpl. now rewrite app_nil_r. }
  rewrite Hlines. repeat split.
  - apply in_map_iff in H. destruct H as [kp [Heq _]]. injection Heq as _ _ <- _.
    unfold lineY. pose proof (Nat.mod_upper_bound (fst kp) 26). lia.
  - apply in_map_iff in H. destruct H as [kp [Heq _]]. injection Heq as _ _ <- _.
    unfold lineY. pose proof (Nat.mod_upper_bound (fst kp) 26). lia.
  - rewrite !filter_app, !length_app.
    cbn [List.filter isAddPage length Nat.add]. rewrite Nat.add_0_r.
    change (1 / 26)%nat with 0%nat in H2. rewrite Nat.add_0_r in H2.
    rewrite H2. f_equal. apply Nat.add_comm.
  - rewrite app_assoc. apply last_last.
Qed.

End PdfLayout.

(** ** The description generator *)
Section Description.
Context {B : Builtins}.

Import GenerateDescription.

(** X14: generateDescription only ever changes the description of the
    form.  A request is sent exactly when name and category are filled
    and the API key is configured; without a request the state is left
    as it is; with one, the generating flag is down at the end.  The
    description changes only on a generated text, to that text trimmed;
    one toast is shown in every case; and a submission that follows
    passes or fails the form's check as before, handing over the form
    with the new description. *)
Theorem generateDescription_changes_the_description_only (key : option string)
  (answer : reply) (st : AddProductForm.State) :
  let result := generateDescription key answer st in
  let st' := fst (fst result) in
  let sent := snd (fst result) in
  let trace := snd result in
  let before := AddProductForm.product st in
  let after := AddProductForm.product st' in
  (sent <> None
   <-> NewProduct.name before <> EmptyString /\ NewProduct.category before <> EmptyString
       /\ Str.truthy key = true)
  /\ (sent = None -> st' = st)
  /\ (sent <> None -> AddProductForm.isGenerating st' = false)
  /\ withDescription after (NewProduct.description before) = before
  /\ (NewProduct.description after <> NewProduct.description before ->
      exists text, answer = Generated text /\ NewProduct.description after = trim text)
  /\ length (List.filter isToast trace) = 1%nat
  /\ forall now,
       snd (AddProductForm.handleSubmit now st')
       = if formInvalid before
         then [ToastError "Please fill all required fields with valid values!" None]
         else [OnAdd (withDescription (stamped now before) (NewProduct.description after));
               ToastSuccess "Product added successfully!"].
Proof.
  cbv zeta. unfold generateDescription.
  destruct st as [[name category price stock description url updatedAt] generating].
  cbn [AddProductForm.product NewProduct.name NewProduct.category].
  destruct (String.eqb_spec name EmptyString) as [Hn|Hn];
    [|destruct (String.eqb_spec category EmptyString) as [Hc|Hc];
      [|destruct (Str.truthy key) eqn:Hk; [destruct answer as [text|status]|]]];
    cbn [orb negb fst snd AddProductForm.product AddProductForm.isGenerating
         withDescription NewProduct.name NewProduct.category NewProduct.price
         NewProduct.stock NewProduct.description NewProduct.url NewProduct.updatedAt];
    (split; [split; [intros H; try (exfalso; now apply H); repeat split; assumption
                    |intros [H1 [H2 H3]]; try discriminate; try contradiction]|]);
    (split; [intros H; try discriminate; reflexivity|]);
    (split; [intros H; try reflexivity; exfalso; now apply H|]);
    (split; [reflexivity|]);
    (split; [intros H; try (exfalso; now apply H); now exists text|]);
    (split; [reflexivity|]);
    intros now; unfold AddProductForm.handleSubmit, formInvalid, stamped;
    cbn [AddProductForm.product AddProductForm.isGenerating
         withDescription NewProduct.name NewProduct.category NewProduct.price
         NewProduct.stock NewProduct.description NewProduct.url NewProduct.updatedAt];
    match goal with
    | |- context [if ?c then _ else _] => destruct c; reflexivity
    end.
Qed.

End Description.

(** ** Login, routes and the session *)
Section Navigation.
Context {B : Builtins}.

Import AuthContext.

(** X15: the login form.  It announces the login and navigates exactly
    when the account list was fetched and holds an account with the
    username and password typed; the path is chosen from the session as
    it was before the login, /admin when that was an admin session and /
    otherwise, so a visitor without session is sent to / whatever the
    role of the account.  In every other case, a rejected fetch included,
    the provider state is left as it was, the form shows Invalid
    credentials and does not navigate. *)
Theorem login_form_navigates_by_the_previous_session
  (response : option (list Account.t)) (username password : string) (st : State) :
  let result := Login.handleSubmit response username password st in
  let st' := fst (fst result) in
  let trace := snd (fst result) in
  let target := snd result in
  (target <> None
   <-> exists users a, response = Some users /\ In a users /\ matches username password a)
  /\ (target <> None ->
      trace = [ToastSuccess ("Logged in as " +++ username +++ "!")]
      /\ target = Some (if Login.isAdmin (user st) then "/admin" else "/")
      /\ exists a, matches username password a
                   /\ user st' = Some (User.mk (Account.username a) (Account.role a)))
  /\ (target = None -> st' = st /\ trace = [ToastError "Invalid credentials" None])
  /\ (user st = None -> target <> Some "/admin")
  /\ (forall path, target = Some path -> In path App.routes).
Proof.
  cbv zeta. unfold Login.handleSubmit, login.
  destruct response as [users|].
  - destruct (find _ users) as [a|] eqn:E.
    + pose proof (find_some _ _ E) as [Hin Hm]. apply credentials_check in Hm.
      cbn [fst snd user]. repeat split.
      * intros _. now exists users, a.
      * intros _. discriminate.
      * exists a. split; auto.
      * discriminate.
      * discriminate.
      * intros Hu. rewrite Hu. discriminate.
      * intros path H. injection H as <-.
        destruct (Login.isAdmin (user st)); simpl; auto.
    + apply find_credentials_none in E. cbn [fst snd].
      split; [|split; [|split; [|split]]].
      * split; [intros H; now exfalso|].
        intros [users' [a [Hr [Hin Hm]]]]. injection Hr as <-.
        exfalso. apply E. now exists a.
      * intros H. now exfalso.
      * intros _. split; reflexivity.
      * intros _. discriminate.
      * intros path H. discriminate.
  - cbn [fst snd]. split; [|split; [|split; [|split]]].
    + split; [intros H; now exfalso|]. intros [users' [a [Hr _]]]. discriminate.
    + intros H. now exfalso.
    + intros _. split; reflexivity.
    + intros _. discriminate.
    + intros path H. discriminate.
Qed.

(** X16: the Admin Dashboard link is shown exactly when the /admin route
    renders the dashboard, that is for a session whose role is admin;
    every link of the bar leads to a route of the application; the
    logout button is there exactly when there is a session; and after
    the bar's logout, which leads to /login, the /admin route redirects
    to the start page. *)
Theorem admin_link_shown_iff_route_opens (session : option User.t) :
  (App.adminElement session = PrivateRoute.Children <-> Login.isAdmin session = true)
  /\ (In (Navbar.LinkTo "Admin Dashboard" "/admin") (Navbar.items session)
      <-> Login.isAdmin session = true)
  /\ (forall label path, In (Navbar.LinkTo label path) (Navbar.items session) ->
                         In path App.routes)
  /\ (In Navbar.LogoutButton (Navbar.items session) <-> session <> None)
  /\ forall st : State,
       App.adminElement (user (fst (Navbar.handleLogout st))) = PrivateRoute.NavigateTo "/"
       /\ snd (Navbar.handleLogout st) = "/login"
       /\ In (snd (Navbar.handleLogout st)) App.routes.
Proof.
  unfold App.adminElement, PrivateRoute.render, Navbar.items, Login.isAdmin.
  split; [|split; [|split; [|split]]].
  - destruct session as [[name role]|]; simpl; [|split; discriminate].
    destruct (role =? "admin"); simpl; split; congruence.
  - destruct session as [[name role]|]; simpl.
    + destruct (role =? "admin"); simpl; split; auto; try discriminate.
      intros [H|[H|[H|[]]]]; discriminate.
    + split; [|discriminate]. intros [H|[H|[H|[]]]]; discriminate.
  - intros label path H.
    destruct session as [[name role]|]; simpl in H.
    + destruct (role =? "admin"); simpl in H;
        repeat (destruct H as [H|H]; [try discriminate; injection H as _ <-; simpl; auto|]);
        destruct H.
    + repeat (destruct H as [H|H]; [try discriminate; injection H as _ <-; simpl; auto|]);
        destruct H.
  - destruct session as [[name role]|]; simpl.
    + split; [discriminate|]. intros _.
      destruct (role =? "admin"); simpl; auto.
    + split; [|congruence]. intros [H|[H|[H|[]]]]; discriminate.
  - intros st. unfold Navbar.handleLogout, logout. cbn [fst snd].
    destruct (user st) eqn:E; cbn [user]; [|rewrite E]; simpl; auto.
Qed.

Lemma reachable_inSync (st : State) : reachable st -> inSync st.
Proof.
  induction 1 as [saved st Hm|st st' _ IH Hstep].
  - now apply (mount_inSync saved).
  - destruct Hstep; [now apply login_inSync | now apply logout_inSync].
Qed.

(** X17: the session survives a reload.  In every state reached by
    restoration, logins and logouts, restoring from the storage entry of
    that state gives that state back, provided JSON.parse reads the
    session that JSON.stringify wrote and that text is not empty. *)
Theorem session_survives_a_reload (st : State) :
  reachable st ->
  (forall u, user st = Some u ->
             JSON_parse (JSON_stringify u) = Some (Some u)
             /\ JSON_stringify u <> EmptyString) ->
  mount (storage st) = Returned st.
Proof.
  intros Hr Hjson. apply reachable_inSync in Hr. unfold inSync in Hr.
  destruct st as [[u|] entry]; cbn [user storage syncStorage] in *; subst entry.
  - destruct (Hjson u eq_refl) as [Hparse Hnonempty].
    unfold mount, restore. cbn [Str.truthy Str.the].
    apply String.eqb_neq in Hnonempty. rewrite Hnonempty. cbn [negb].
    now rewrite Hparse.
  - reflexivity.
Qed.

(** X18: in every state reached by restoration, logins and logouts, a
    logout leaves no session and no storage entry, so that a reload
    after it starts without session. *)
Theorem logout_clears_session_and_storage (st : State) :
  reachable st ->
  logout st = mkState None None
  /\ mount (storage (logout st)) = Returned (mkState None None).
Proof.
  intros Hr. apply reachable_inSync in Hr. unfold inSync in Hr.
  assert (H : logout st = mkState None None).
  { unfold logout. destruct st as [[u|] entry]; cbn [user storage syncStorage] in *.
    - reflexivity.
    - now subst entry. }
  rewrite H. split; reflexivity.
Qed.

End Navigation.

(** The admin session written by a login is found again at a reload. *)
Lemma session_survives_a_reload_witness :
  reachable (B := Reference.builtins) signedIn
  /\ AuthContext.mount (B := Reference.builtins) (AuthContext.storage signedIn)
     = AuthContext.Returned signedIn.
Proof.
  split; [exact signedIn_reachable|].
  apply (@session_survives_a_reload Reference.builtins signedIn signedIn_reachable).
  intros u Hu. injection Hu as <-. split; [reflexivity|discriminate].
Defined.

(** The logout of the admin session leaves nothing. *)
Lemma logout_clears_session_and_storage_witness :
  reachable (B := Reference.builtins) signedIn
  /\ AuthContext.logout (B := Reference.builtins) signedIn = anonymous.
Proof.
  split; [exact signedIn_reachable|].
  exact (proj1 (@logout_clears_session_and_storage Reference.builtins signedIn
                  signedIn_reachable)).
Defined.

(** ** The dashboard *)
Section Dashboard.
Context {B : Builtins}.

Import DashboardMetrics.

Lemma ranges_partition (products : list Product.t) :
  (forall p, In p products -> comparesAsANumber (Product.stock p)) ->
  (length (List.filter (fun p => num_leb (Product.stock p) (num_of_Z 10)) products)
   + (length (List.filter (fun p => num_ltb (num_of_Z 10) (Product.stock p)
                                    && num_leb (Product.stock p) (num_of_Z 50)) products)
      + length (List.filter (fun p => num_ltb (num_of_Z 50) (Product.stock p)) products))
   = length products)%nat.
Proof.
  induction products as [|p l IH]; intros H; [reflexivity|].
  assert (IH' := IH (fun q Hq => H q (or_intror Hq))).
  destruct (H p (or_introl eq_refl)) as [H10 [H50 Hle]].
  cbn [List.filter]. rewrite H10, H50.
  destruct (num_leb (Product.stock p) (num_of_Z 10)) eqn:E10.
  - rewrite (Hle eq_refl). simpl. lia.
  - destruct (num_leb (Product.stock p) (num_of_Z 50)); simpl; lia.
Qed.

(** X19: the stock chart accounts for every product once.  When the
    stock of every product compares with 10 and 50 as a number does, the
    values of the ranges shown add up to the number of products; a range
    is shown only if it holds a product, and the ranges shown are among
    0-10, 11-50 and 51+. *)
Theorem stockDistribution_counts_every_product_once (products : list Product.t) :
  (forall p, In p products -> comparesAsANumber (Product.stock p)) ->
  total (stockDistribution products) = totalProducts products
  /\ forall range value, In (range, value) (stockDistribution products) ->
                         (0 < value)%nat /\ In range ["0-10"; "11-50"; "51+"].
Proof.
  intros H. pose proof (ranges_partition products H) as Hsum.
  unfold stockDistribution, totalProducts, total.
  set (a := length (List.filter (fun p => num_leb (Product.stock p) (num_of_Z 10)) products))
    in *.
  set (b := length (List.filter (fun p => num_ltb (num_of_Z 10) (Product.stock p)
                                          && num_leb (Product.stock p) (num_of_Z 50))
                                products)) in *.
  set (c := length (List.filter (fun p => num_ltb (num_of_Z 50) (Product.stock p)) products))
    in *.
  clearbody a b c. split.
  - destruct a, b, c; simpl in *; lia.
  - intros range value Hin. apply filter_In in Hin. destruct Hin as [Hin Hpos].
    cbn [snd] in Hpos. apply Nat.ltb_lt in Hpos. split; [exact Hpos|].
    simpl in Hin. simpl.
    destruct Hin as [Hin|[Hin|[Hin|[]]]]; injection Hin as <- _; auto.
Qed.

(** X20: the Low Stock Alerts figure of the dashboard is the number of
    low-stock alerts that the product list raises when it loads the same
    products, and it is at most the number of products. *)
Theorem lowStockCount_is_the_number_of_alerts (products : list Product.t)
  (st : ProductList.State) :
  lowStockCount products
  = length (List.filter isToast (snd (ProductList.fetchProducts (Some products) st)))
  /\ (lowStockCount products <= totalProducts products)%nat.
Proof.
  unfold lowStockCount, totalProducts, ProductList.fetchProducts. cbn [snd List.filter isToast].
  split; [|apply filter_length_le].
  induction products as [|p l IH]; [reflexivity|].
  cbn [List.filter flat_map]. unfold ProductList.lowStock at 1.
  destruct (num_ltb (Product.stock p) (num_of_Z 10)); cbn [app List.filter isToast
    ProductList.lowStockAlert length]; now rewrite IH.
Qed.

Lemma dated_nth (clock : nat -> string) (data : list Product.t) (from i : nat) :
  nth_error (AdminDashboard.dated clock from data) i
  = option_map (AdminDashboard.withUpdatedAt (clock (from + i))) (nth_error data i).
Proof.
  revert from i. induction data as [|p l IH]; intros from i.
  - now destruct i.
  - destruct i as [|i]; cbn [AdminDashboard.dated nth_error option_map].
    + now rewrite Nat.add_0_r.
    + rewrite IH. now rewrite Nat.add_succ_comm.
Qed.

Lemma dated_In (clock : nat -> string) (data : list Product.t) (from : nat)
  (q : Product.t) :
  In q (AdminDashboard.dated clock from data) ->
  exists i p, In p data /\ q = AdminDashboard.withUpdatedAt (clock i) p.
Proof.
  revert from. induction data as [|p l IH]; intros from; [intros []|].
  intros [<-|Hin].
  - exists from, p. split; [now left | reflexivity].
  - destruct (IH _ Hin) as [i [p' [Hp' ->]]]. exists i, p'. split; [now right | reflexivity].
Qed.

Lemma dated_fields (clock : nat -> string) (data : list Product.t) (from : nat) :
  map (fun q => (Product.id q, Product.name q, Product.category q, Product.price q,
                 Product.stock q, Product.description q, Product.url q))
      (AdminDashboard.dated clock from data)
  = map (fun p => (Product.id p, Product.name p, Product.category p, Product.price p,
                   Product.stock p, Product.description p, Product.url p)) data.
Proof.
  revert from. induction data as [|p l IH]; intros from; [reflexivity|].
  cbn [AdminDashboard.dated map]. now rewrite IH.
Qed.

Lemma dated_unchanged (clock : nat -> string) (data : list Product.t) (from : nat) :
  forallb (fun p => Str.truthy (Product.updatedAt p)) data = true ->
  AdminDashboard.dated clock from data = data.
Proof.
  revert from. induction data as [|p l IH]; intros from; [reflexivity|].
  cbn [forallb AdminDashboard.dated]. intros H.
  apply andb_true_iff in H. destruct H as [Hp Hl].
  rewrite (IH _ Hl). f_equal.
  destruct p as [i n c pr st d u [s|]]; simpl in *; [|discriminate].
  unfold AdminDashboard.withUpdatedAt. simpl.
  destruct (s =? EmptyString); [discriminate | reflexivity].
Qed.

(** X21: the dashboard dates what it loads.  After a resolved load,
    with a clock that never gives the empty text, every product has a
    non-empty updatedAt, so the ordering of the recent updates never
    reads a missing date: the product at index i keeps its own date when
    it came with a non-empty one and gets the time at which it was
    mapped otherwise.  Nothing else of a product is changed, and
    products that all came dated are stored as they came.  A rejected
    load leaves the products as they were. *)
Theorem dashboard_load_dates_every_product (data : list Product.t)
  (clock : nat -> string) (products : list Product.t) :
  (forall i, clock i <> EmptyString) ->
  let loaded := fst (AdminDashboard.fetchProducts (Some data) clock products) in
  (forall q, In q loaded ->
             exists s, Product.updatedAt q = Some s /\ s <> EmptyString
                       /\ AdminDashboard.getTime q = Date_getTime s)
  /\ map (fun q => (Product.id q, Product.name q, Product.category q, Product.price q,
                    Product.stock q, Product.description q, Product.url q)) loaded
     = map (fun p => (Product.id p, Product.name p, Product.category p, Product.price p,
                      Product.stock p, Product.description p, Product.url p)) data
  /\ (forall i p, nth_error data i = Some p ->
                  option_map Product.updatedAt (nth_error loaded i)
                  = Some (Some (if Str.truthy (Product.updatedAt p)
                                then Str.the (Product.updatedAt p) else clock i)))
  /\ (forallb (fun p => Str.truthy (Product.updatedAt p)) data = true -> loaded = data)
  /\ fst (AdminDashboard.fetchProducts None clock products) = products.
Proof.
  intros Hclock. cbv zeta. cbn [AdminDashboard.fetchProducts fst].
  split; [|split; [|split; [|split]]].
  - intros q Hq. apply dated_In in Hq. destruct Hq as [i [p [_ ->]]].
    exists (Str.orElse (Product.updatedAt p) (clock i)). repeat split.
    destruct (Product.updatedAt p) as [s|]; simpl; [|apply Hclock].
    destruct (String.eqb_spec s EmptyString); [apply Hclock | assumption].
  - apply dated_fields.
  - intros i p Hp. rewrite dated_nth, Hp. simpl. do 2 f_equal.
    destruct (Product.updatedAt p) as [s|]; simpl; auto.
    destruct (s =? EmptyString); reflexivity.
  - apply dated_unchanged.
  - reflexivity.
Qed.

End Dashboard.

Lemma shelf_compares (p : @Product.t Reference.builtins) :
  In p [widget; gadget] -> comparesAsANumber (Product.stock p).
Proof.
  intros [<-|[<-|[]]]; repeat split.
Qed.

(** The Widget (5 units) and the Gadget (50 units) make two products in
    the chart. *)
Lemma stockDistribution_counts_every_product_once_witness :
  (forall p, In p [widget; gadget] -> comparesAsANumber (Product.stock p))
  /\ total (DashboardMetrics.stockDistribution [widget; gadget]) = 2.
Proof.
  split; [exact shelf_compares|].
  exact (proj1 (@stockDistribution_counts_every_product_once Reference.builtins
                  [widget; gadget] shelf_compares)).
Defined.

(** The Widget and the Gadget come without date and the Gadget of June
    with its own: each of the first two gets the time at which it was
    mapped, the two times differ, and the third keeps its date. *)
Lemma dashboard_load_dates_every_product_witness :
  (forall i, ticking i <> EmptyString)
  /\ map Product.updatedAt
         (fst (AdminDashboard.fetchProducts (Some [widget; gadget; gadgetJune]) ticking []))
     = [Some "2025-03-01T12:00:00.000Z"; Some "2025-03-01T12:00:00.001Z";
        Some "2025-06-01T00:00:00.000Z"]
  /\ option_map Product.updatedAt
       (nth_error (fst (AdminDashboard.fetchProducts (Some [widget; gadget; gadgetJune])
                                                     ticking [])) 1)
     = Some (Some (ticking 1)).
Proof.
  assert (H : forall i, ticking i <> EmptyString).
  { intros i. unfold ticking. destruct (i =? 0)%nat; discriminate. }
  split; [exact H|]. split; [reflexivity|].
  exact (proj1 (proj2 (proj2 (@dashboard_load_dates_every_product Reference.builtins
                                 [widget; gadget; gadgetJune] ticking [] H)))
           1 gadget eq_refl).
Defined.

(** ** The order of the sorted views *)
Section Orderings.
Context {B : Builtins}.

Lemma consistentOn_subset (A : Type) (cmp : A -> A -> number) (l l' : list A) :
  (forall a, In a l' -> In a l) -> consistentOn cmp l -> consistentOn cmp l'.
Proof.
  intros Hsub [Hasym Htrans]. split.
  - intros a b Ha Hb. apply Hasym; now apply Hsub.
  - intros a b c Ha Hb Hc. apply Htrans; now apply Hsub.
Qed.

Lemma sortInsert_inOrder (A : Type) (cmp : A -> A -> number) (x : A) (l : list A) :
  consistentOn cmp (x :: l) -> inOrder cmp l -> inOrder cmp (sortInsert cmp x l).
Proof.
  induction l as [|y l IH]; intros Hcmp Hl.
  - split; [intros b []|exact I].
  - destruct Hl as [Hy Hl]. cbn [sortInsert].
    destruct (num_ltb (num_of_Z 0) (cmp x y)) eqn:Exy.
    + split.
      * intros b Hb. apply (Permutation_in _ (sortInsert_permutation cmp x l)) in Hb.
        destruct Hb as [<-|Hb]; [|now apply Hy].
        apply (proj1 Hcmp); simpl; auto.
      * apply IH; [|exact Hl].
        apply (consistentOn_subset (l := x :: y :: l)); [|exact Hcmp].
        intros a [<-|Ha]; simpl; auto.
    + split; [|split; [exact Hy|exact Hl]].
      intros b [<-|Hb]; [exact Exy|].
      apply ((proj2 Hcmp) x y b); simpl; auto.
Qed.

Lemma sorted_inOrder (A : Type) (cmp : A -> A -> number) (l : list A) :
  consistentOn cmp l -> inOrder cmp (sorted cmp l).
Proof.
  induction l as [|x l IH]; intros Hcmp; [exact I|].
  cbn [sorted]. apply sortInsert_inOrder.
  - apply (consistentOn_subset (l := x :: l)); [|exact Hcmp].
    intros a [<-|Ha]; [now left|right].
    now apply (Permutation_in _ (sorted_permutation cmp l)).
  - apply IH. apply (consistentOn_subset (l := x :: l)); [|exact Hcmp].
    intros a Ha. now right.
Qed.

Lemma firstn_inOrder (A : Type) (cmp : A -> A -> number) (n : nat) (l : list A) :
  inOrder cmp l -> inOrder cmp (firstn n l).
Proof.
  revert l. induction n as [|n IH]; intros l Hl; [exact I|].
  destruct l as [|a l]; [exact I|].
  destruct Hl as [Ha Hl]. cbn [firstn]. split.
  - intros b Hb. apply Ha. now apply in_firstn in Hb.
  - now apply IH.
Qed.

(** In a list in order, no element of a front part is put after one of
    the rest. *)
Lemma inOrder_front (A : Type) (cmp : A -> A -> number) (n : nat) (l : list A) :
  inOrder cmp l ->
  forall a b, In a (firstn n l) -> In b (skipn n l) ->
              num_ltb (num_of_Z 0) (cmp a b) = false.
Proof.
  revert l. induction n as [|n IH]; intros l Hl a b Ha Hb; [destruct Ha|].
  destruct l as [|x l]; [destruct Ha|].
  destruct Hl as [Hx Hl]. cbn [firstn skipn] in *.
  destruct Ha as [<-|Ha].
  - apply Hx. rewrite <- (firstn_skipn n l). apply in_or_app. now right.
  - now apply (IH l Hl).
Qed.

Lemma recentUpdates_run (products : Heap.ref) (h : Heap.heap Product.t) :
  products < length h ->
  let ordered := sorted (fun a b => num_sub (AdminDashboard.getTime b)
                                            (AdminDashboard.getTime a))
                        (Heap.read h products) in
  runState (AdminDashboard.recentUpdates products) h
  = (length h, Heap.update h products ordered ++ [firstn 5 ordered]).
Proof.
  intros Hlt. unfold AdminDashboard.recentUpdates, Heap.sort, Heap.slice, Heap.alloc.
  simpl. now rewrite read_update, length_update.
Qed.

(** X22: the recent updates of the dashboard.  When the comparator of
    the sort is consistent on the products of the state array (which
    asks that every date be one the comparator can order), the sort
    leaves that array with no product before one with a later update,
    at whatever distance; the view is its first five products, all of
    them when there are fewer, so the view is in that order too and no
    product left out of it has a later update than one it shows.  The
    sort, which works on the state array itself, only reorders it: no
    product is lost or repeated. *)
Theorem recentUpdates_latest_first (products : Heap.ref) (h : Heap.heap Product.t) :
  let later := fun a b => num_sub (AdminDashboard.getTime b) (AdminDashboard.getTime a) in
  products < length h ->
  consistentOn later (Heap.read h products) ->
  let result := runState (AdminDashboard.recentUpdates products) h in
  let view := Heap.read (snd result) (fst result) in
  let ordered := Heap.read (snd result) products in
  inOrder later ordered
  /\ view = firstn 5 ordered
  /\ inOrder later view
  /\ (forall a b, In a view -> In b (skipn 5 ordered) ->
                  num_ltb (num_of_Z 0) (later a b) = false)
  /\ length view = Nat.min 5 (length (Heap.read h products))
  /\ Permutation ordered (Heap.read h products).
Proof.
  cbv zeta. intros Hlt Hcmp. rewrite (recentUpdates_run h Hlt). cbn [fst snd].
  pose proof (sorted_inOrder Hcmp) as Hsorted.
  set (ordered := sorted (fun a b => num_sub (AdminDashboard.getTime b)
                                             (AdminDashboard.getTime a))
                         (Heap.read h products)) in *.
  assert (Hview : Heap.read (Heap.update h products ordered ++ [firstn 5 ordered])
                            (length h)
                  = firstn 5 ordered).
  { rewrite <- (length_update h products ordered). apply read_last. }
  assert (Hstate : Heap.read (Heap.update h products ordered ++ [firstn 5 ordered])
                             products
                   = ordered).
  { rewrite read_app_l by (now rewrite length_update). now apply read_update. }
  rewrite Hview, Hstate.
  split; [exact Hsorted|]. split; [reflexivity|]. split; [|split; [|split]].
  - now apply firstn_inOrder.
  - now apply inOrder_front.
  - rewrite length_firstn. f_equal. apply Permutation_length, sorted_permutation.
  - apply sorted_permutation.
Qed.


End Orderings.

Lemma january_june_consistent :
  consistentOn (B := Reference.builtins)
    (fun a b => num_sub (AdminDashboard.getTime b) (AdminDashboard.getTime a))
    [widgetJanuary; gadgetJune].
Proof.
  split.
  - intros a b [<-|[<-|[]]] [<-|[<-|[]]]; vm_compute; congruence.
  - intros a b c [<-|[<-|[]]] [<-|[<-|[]]] [<-|[<-|[]]]; vm_compute; congruence.
Qed.



(** Of the Widget of January and the Gadget of June the view shows the
    Gadget first. *)
Lemma recentUpdates_latest_first_witness :
  let before : Heap.heap (@Product.t Reference.builtins) :=
    [[widgetJanuary; gadgetJune]] in
  let result := runState (AdminDashboard.recentUpdates 0) before in
  0 < length before
  /\ inOrder (fun a b => num_sub (AdminDashboard.getTime b) (AdminDashboard.getTime a))
             (Heap.read (snd result) (fst result))
  /\ Heap.read (snd result) (fst result) = [gadgetJune; widgetJanuary].
Proof.
  cbv zeta.
  assert (H : 0 < length ([[widgetJanuary; gadgetJune]]
                          : Heap.heap (@Product.t Reference.builtins)))
    by (simpl; lia).
  split; [exact H|]. split; [|reflexivity].
  exact (proj1 (proj2 (proj2 (@recentUpdates_latest_first Reference.builtins 0
                                 [[widgetJanuary; gadgetJune]] H
                                 january_june_consistent)))).
Defined.

